(** * LassoESM example notebooks: embedding extraction and classifier evaluation

    A shallow embedding of the two notebooks of the repository:

    - the embedding-extraction notebook ([MODELS], [get_mean_rep],
      [process_embeddings]), in [Module Extract];
    - the substrate-tolerance notebook (the grid-search loop and [cv_res]),
      in [Module Predict].

    Conventions.  Python exceptions are values of [exn]; a computation that
    may raise and touches nothing is a [result]; a computation that reads or
    writes files or prints is an [M], a state-and-exception monad over
    [world] in which the state reached when the exception is raised is kept
    (what was written before a failure stays written).  Floating-point
    numbers are idealised as rationals, together with a [NaN] that
    arithmetic propagates (the mean of an empty axis, the score of a fit
    that failed).  The pretrained models, the tokenizers and the scikit-learn
    estimators are collaborators of the notebooks, not code of theirs: they
    are Variables of the Sections below. *)

From Stdlib Require Import QArith.
From Stdlib Require Import Ascii String.
From stdpp Require Import gmap strings list pretty.

Open Scope string_scope.

(** ** Python-level plumbing shared by the two notebooks *)

Module Py.

Inductive exn : Type :=
| ValueError (msg : string)
| KeyError (key : string)
| IndexError (msg : string)
| TypeError (msg : string)
| FileNotFoundError (path : string)
| PermissionError (path : string)
| EmptyDataError (msg : string)
| EOFError (msg : string)
| ExternalError (msg : string).

(** [inl e]: the exception [e] was raised; [inr a]: normal completion. *)
Definition result (A : Type) : Type := exn + A.

#[global] Instance result_ret : MRet result := fun _ a => inr a.
#[global] Instance result_bind : MBind result := fun _ _ f m =>
  match m with
  | inl e => inl e
  | inr a => f a
  end.

Definition is_ok {A} (r : result A) : bool :=
  match r with inr _ => true | inl _ => false end.

(** Scalars: a rational, or the not-a-number that a mean over nothing gives. *)
Inductive scalar : Type :=
| Fin (q : Q)
| NaN.

(** Addition and division by a count, with not-a-number absorbing. *)
Definition sadd (a b : scalar) : scalar :=
  match a, b with
  | Fin x, Fin y => Fin (x + y)
  | _, _ => NaN
  end.

Definition sdiv_count (a : scalar) (n : nat) : scalar :=
  match a, n with
  | Fin x, S _ => Fin (x / inject_Z (Z.of_nat n))
  | _, _ => NaN
  end.

Definition ssum (xs : list scalar) : scalar := foldr sadd (Fin 0) xs.

(** The arithmetic mean of the numbers along one axis, as [torch.mean] and
    [np.mean] compute it: the sum divided by the count. *)
Definition mean (xs : list scalar) : scalar := sdiv_count (ssum xs) (length xs).

(** [repr] of a Python list of plain strings, as an f-string interpolates it. *)
Definition repr_str (s : string) : string := "'" +:+ s +:+ "'".

Fixpoint join (sep : string) (xs : list string) : string :=
  match xs with
  | [] => ""
  | [x] => x
  | x :: rest => x +:+ sep +:+ join sep rest
  end.

Definition repr_list (xs : list string) : string :=
  "[" +:+ join ", " (map repr_str xs) +:+ "]".

(** [s.endswith(suffix)] *)
Definition endswith (s suffix : string) : bool :=
  let n := String.length s in
  let k := String.length suffix in
  if (k <=? n)%nat then String.eqb (String.substring (n - k) k s) suffix else false.

(** [s.startswith(p)] *)
Definition startswith (s p : string) : bool := String.prefix p s.

(** A cell of a data frame: a string, an integer, or the NaN pandas stores
    where a field is missing. *)
Inductive cell : Type :=
| CStr (s : string)
| CInt (z : Z)
| CNaN.

Record DataFrame : Type := { columns : list string; rows : list (list cell) }.

(** The arrays the notebook builds: [np.array] of a list of vectors is a
    two-dimensional array with its column count, and of the empty list the
    one-dimensional array of shape [(0,)]. *)
Inductive ndarray : Type :=
| Arr1 (v : list scalar)
| Arr2 (ncols : nat) (data : list (list scalar)).

(** A file is represented by what its readers see in it: a zero-byte file,
    the table that pandas parses out of a CSV text (header names, then the
    records in file order), or the array stored in a [.npy] file. *)
Inductive file : Type :=
| EmptyFile
| CsvFile (header : list string) (body : list (list cell))
| NpyFile (a : ndarray).

Record world : Type := {
  files : gmap string file;      (* path -> contents *)
  readonly : gset string;        (* paths that cannot be opened for writing *)
  stdout : list string           (* the lines printed so far *)
}.

(** The state-and-exception monad of the notebooks. *)

Definition M (A : Type) : Type := world -> result A * world.

#[global] Instance M_ret : MRet M := fun _ a w => (inr a, w).
#[global] Instance M_bind : MBind M := fun _ _ f m w =>
  match m w with
  | (inl e, w') => (inl e, w')
  | (inr a, w') => f a w'
  end.

Definition raise {A} (e : exn) : M A := fun w => (inl e, w).
Definition lift {A} (r : result A) : M A := fun w => (r, w).

Definition print (line : string) : M unit := fun w =>
  (inr tt, {| files := files w; readonly := readonly w;
              stdout := stdout w ++ [line] |}).

(** [d.keys()], [k in d] and [d[k]] on a dict literal, kept in insertion
    order. *)
Definition dict_keys {V} (d : list (string * V)) : list string := map fst d.

Definition dict_contains {V} (k : string) (d : list (string * V)) : bool :=
  existsb (String.eqb k) (dict_keys d).

Fixpoint dict_getitem {V} (k : string) (d : list (string * V)) : result V :=
  match d with
  | [] => inl (KeyError k)
  | (k', v) :: rest => if String.eqb k k' then inr v else dict_getitem k rest
  end.

(** [pd.read_csv(path)] *)
Definition read_csv (path : string) : M DataFrame := fun w =>
  match files w !! path with
  | None => (inl (FileNotFoundError path), w)
  | Some EmptyFile => (inl (EmptyDataError "No columns to parse from file"), w)
  | Some (CsvFile [] _) => (inl (EmptyDataError "No columns to parse from file"), w)
  | Some (CsvFile header body) => (inr {| columns := header; rows := body |}, w)
  | Some (NpyFile _) => (inl (ValueError "'utf-8' codec can't decode byte 0x93 in position 0"), w)
  end.

(** [data.iloc[:, i].tolist()] *)
Definition iloc_column (i : nat) (data : DataFrame) : result (list cell) :=
  if (i <? length (columns data))%nat
  then inr (map (fun r => nth i r CNaN) (rows data))
  else inl (IndexError "single positional indexer is out-of-bounds").

(** [[f(x) for x in xs]]: the calls are made in list order and the first
    exception ends the comprehension. *)
Fixpoint list_comprehension {A B} (f : A -> result B) (xs : list A) : result (list B) :=
  match xs with
  | [] => inr []
  | x :: rest =>
      y ← f x;
      ys ← list_comprehension f rest;
      mret (y :: ys)
  end.

(** [np.array(vs)] on a list of one-dimensional arrays; vectors of
    different lengths are refused (NumPy 1.24 and later). *)
Definition np_array (vs : list (list scalar)) : result ndarray :=
  match vs with
  | [] => inr (Arr1 [])
  | v :: rest =>
      if forallb (fun u => (length u =? length v)%nat) rest
      then inr (Arr2 (length v) vs)
      else inl (ValueError "setting an array element with a sequence. The requested array has an inhomogeneous shape after 1 dimensions.")
  end.

(** [a.shape], formatted as Python prints a tuple. *)
Definition shape (a : ndarray) : list nat :=
  match a with
  | Arr1 v => [length v]
  | Arr2 ncols data => [length data; ncols]
  end.

Definition repr_tuple (xs : list nat) : string :=
  match xs with
  | [x] => "(" +:+ pretty x +:+ ",)"
  | _ => "(" +:+ join ", " (map pretty xs) +:+ ")"
  end.

(** [np.save(path, a)]: the extension [.npy] is appended to a name that
    lacks it; the file is opened for writing, which replaces what was
    there.  The one failure that is modelled is the refusal to open the
    file; a failure while the array is being written, which leaves a
    truncated file behind, is not. *)
Definition npy_name (path : string) : string :=
  if endswith path ".npy" then path else path +:+ ".npy".

Definition np_save (path : string) (a : ndarray) : M unit := fun w =>
  let target := npy_name path in
  if decide (target ∈ readonly w)
  then (inl (PermissionError target), w)
  else (inr tt, {| files := <[target := NpyFile a]> (files w);
                   readonly := readonly w; stdout := stdout w |}).

(** [np.load(path)] *)
Definition np_load (path : string) : M ndarray := fun w =>
  match files w !! path with
  | None => (inl (FileNotFoundError path), w)
  | Some (NpyFile a) => (inr a, w)
  | Some EmptyFile => (inl (EOFError "No data left in file"), w)
  | Some (CsvFile _ _) =>
      (inl (ValueError "Cannot load file containing pickled data when allow_pickle=False"), w)
  end.

(** [for x in xs: body(x)] *)
Fixpoint for_each {A} (xs : list A) (body : A -> M unit) : M unit :=
  match xs with
  | [] => mret tt
  | x :: rest => body x;; for_each rest body
  end.

End Py.

Import Py.

(** ** The embedding-extraction notebook *)

Module Extract.

(** *** Data *)

(** A tensor of shape [(t_rows, t_cols)], row-major: one row per token. *)
Record tensor2 : Type := { t_cols : nat; t_rows : list (list scalar) }.

Record BatchEncoding : Type := {
  input_ids : list (list Z);
  attention_mask : list (list Z)
}.

(** [hidden_states]: a tuple over the layers of tensors of shape
    [(batch, tokens, hidden)]. *)
Record ModelOutput : Type := { hidden_states : list (list tensor2) }.

(** A loaded encoder: its mode flag and its forward pass called with
    [output_hidden_states=True]. *)
Record Model : Type := {
  training : bool;
  forward : bool -> list (list Z) -> result ModelOutput
}.

(** A loaded tokenizer, called with [return_tensors='pt']. *)
Definition Tokenizer : Type := cell -> result BatchEncoding.

Record config : Type := { model_path : string; output_file : string }.

(** *** Library operations the notebook calls *)

(** [xs[-1]] on a tuple and [t[0]] on the batch axis of a tensor. *)
Definition index_last {A} (xs : list A) : result A :=
  match last xs with
  | Some x => inr x
  | None => inl (IndexError "tuple index out of range")
  end.

Definition index_first {A} (xs : list A) : result A :=
  match xs with
  | x :: _ => inr x
  | [] => inl (IndexError "index 0 is out of bounds for dimension 0 with size 0")
  end.

(** [t.mean(dim=0)]: one mean per column, over all the rows. *)
Definition column (j : nat) (t : tensor2) : list scalar :=
  map (fun r => nth j r NaN) (t_rows t).

Definition mean_dim0 (t : tensor2) : list scalar :=
  map (fun j => mean (column j t)) (seq 0 (t_cols t)).

(** [model.eval()] *)
Definition eval (m : Model) : Model :=
  {| training := false; forward := forward m |}.

(** An encoder of hidden width [H]: every tensor among its hidden states
    has [H] columns. *)
Definition hidden_width (m : Model) (H : nat) : Prop :=
  forall mode ids out layer rep,
    forward m mode ids = inr out ->
    layer ∈ hidden_states out -> rep ∈ layer -> t_cols rep = H.

(** *** The notebook's own code *)

Definition MODELS : list (string * config) :=
  [ ("Lasso_ESM",  {| model_path := "ShuklaGroupIllinois/LassoESM";
                      output_file := "FusA_LassoESM.npy" |});
    ("VanillaESM", {| model_path := "facebook/esm2_t33_650M_UR50D";
                      output_file := "FusA_VanillaESM.npy" |});
    ("PeptideESM", {| model_path := "ShuklaGroupIllinois/PeptideESM2_650M";
                      output_file := "FusA_PeptideESM_650M.npy" |}) ].

Definition get_mean_rep (sequence : cell) (model : Model) (tokenizer : Tokenizer)
  : result (list scalar) :=
  token_ids ← tokenizer sequence;
  results ← forward model (training model) (input_ids token_ids);
  last_layer ← index_last (hidden_states results);
  representations ← index_first last_layer;   (* Use the last hidden layer *)
  let mean_embedding := mean_dim0 representations in
  mret mean_embedding.

Section Notebook.

(** The model hub: [AutoModelForMaskedLM.from_pretrained] and
    [AutoTokenizer.from_pretrained].  The download cache that they keep is
    not among the files of [world]. *)
Variable AutoModelForMaskedLM_from_pretrained : string -> result Model.
Variable AutoTokenizer_from_pretrained : string -> result Tokenizer.

Definition process_embeddings (data_file model_name : string) : M unit :=
  if negb (dict_contains model_name MODELS) then
    raise (ValueError ("Model " +:+ model_name +:+
                       " not configured. Available models: " +:+
                       repr_list (dict_keys MODELS)))
  else
    config ← lift (dict_getitem model_name MODELS);
    print ("Loading model: " +:+ model_name);;
    model ← lift (AutoModelForMaskedLM_from_pretrained (model_path config));
    tokenizer ← lift (AutoTokenizer_from_pretrained (model_path config));
    let model := eval model in
    (* Load data *)
    data ← read_csv data_file;
    seq_ls ← lift (iloc_column 0 data);
    print ("Number of sequences: " +:+ pretty (length seq_ls));;
    (* Extract embeddings *)
    seq_embs ← lift (list_comprehension
                       (fun seq => get_mean_rep seq model tokenizer) seq_ls);
    seq_embs ← lift (np_array seq_embs);
    (* Save embeddings *)
    np_save (output_file config) seq_embs;;
    print ("Embeddings saved to: " +:+ output_file config);;
    print ("Shape of embeddings: " +:+ repr_tuple (shape seq_embs)).

(** The statements of [process_embeddings] that come before [np.save],
    taken apart to state what they do on their own: they end with the
    configuration entry and the array that [np.save] is then given. *)
Definition before_save (data_file model_name : string) : M (config * ndarray) :=
  if negb (dict_contains model_name MODELS) then
    raise (ValueError ("Model " +:+ model_name +:+
                       " not configured. Available models: " +:+
                       repr_list (dict_keys MODELS)))
  else
    config ← lift (dict_getitem model_name MODELS);
    print ("Loading model: " +:+ model_name);;
    model ← lift (AutoModelForMaskedLM_from_pretrained (model_path config));
    tokenizer ← lift (AutoTokenizer_from_pretrained (model_path config));
    let model := eval model in
    data ← read_csv data_file;
    seq_ls ← lift (iloc_column 0 data);
    print ("Number of sequences: " +:+ pretty (length seq_ls));;
    seq_embs ← lift (list_comprehension
                       (fun seq => get_mean_rep seq model tokenizer) seq_ls);
    seq_embs ← lift (np_array seq_embs);
    mret (config, seq_embs).

(** The driver cell, run on the data set of the repository. *)
Definition data_file : string :=
  "../data/data_for_substrate_tolerance_prediction/FusA_tolerance_dataset.csv".

Definition main : M unit :=
  for_each (dict_keys MODELS) (fun model_name => process_embeddings data_file model_name).

End Notebook.

(** *** A small tokenizer and encoder to run the notebook on

    An ESM-style vocabulary ([<cls>] is 0, [<eos>] is 2, a residue its
    letter's code minus 61, so that [A] is 4), a context of eight tokens,
    and an encoder of hidden width two whose last layer gives the token [t]
    the row [(t, 1)]. *)

Module Toy.

Definition token_of (c : Ascii.ascii) : Z := Z.of_nat (Ascii.nat_of_ascii c) - 61.

Definition max_context : nat := 8.

Definition tokenizer : Tokenizer := fun c =>
  match c with
  | CStr s =>
      let ids := 0%Z :: map token_of (String.list_ascii_of_string s) ++ [2%Z] in
      if (length ids <=? max_context)%nat
      then inr {| input_ids := [ids]; attention_mask := [map (fun _ => 1%Z) ids] |}
      else inl (ExternalError "sequence longer than the context of the model")
  | _ => inl (ValueError "text input must be of type str")
  end.

Definition embed_tokens (ids : list Z) : tensor2 :=
  {| t_cols := 2; t_rows := map (fun _ => [Fin 0; Fin 0]) ids |}.

Definition last_layer (ids : list Z) : tensor2 :=
  {| t_cols := 2; t_rows := map (fun t => [Fin (inject_Z t); Fin 1]) ids |}.

Definition model : Model :=
  {| training := false;
     forward := fun _ batch =>
       inr {| hidden_states := [map embed_tokens batch; map last_layer batch] |} |}.

Definition hub_model (path : string) : result Model := inr model.
Definition hub_tokenizer (path : string) : result Tokenizer := inr tokenizer.

Definition world_of (fs : gmap string file) : world :=
  {| files := fs; readonly := ∅; stdout := [] |}.

(** A two-column data set, one with the sequence column only, and one
    with a sequence that does not fit the context. *)
Definition labelled : file :=
  CsvFile ["Sequence"; "Label"] [[CStr "AC"; CInt 1]; [CStr "A"; CInt 0]].

Definition unlabelled : file :=
  CsvFile ["Sequence"] [[CStr "AC"]; [CStr "A"]].

Definition too_long : file :=
  CsvFile ["Sequence"; "Label"]
          [[CStr "AC"; CInt 1]; [CStr "ACDEFGHIK"; CInt 0]; [CStr "A"; CInt 0]].

Definition header_only : file := CsvFile ["Sequence"; "Label"] [].

Definition labelled_world : world := world_of {[ "d.csv" := labelled ]}.
Definition unlabelled_world : world := world_of {[ "d.csv" := unlabelled ]}.
Definition too_long_world : world := world_of {[ "d.csv" := too_long ]}.
Definition empty_file_world : world := world_of {[ "d.csv" := EmptyFile ]}.
Definition header_only_world : world := world_of {[ "d.csv" := header_only ]}.

Definition vanilla : config :=
  {| model_path := "facebook/esm2_t33_650M_UR50D";
     output_file := "FusA_VanillaESM.npy" |}.

(** A hub that hands the encoder over in training mode, one that cannot
    be reached, and one that lacks the second model of the configuration. *)
Definition training_hub (path : string) : result Model :=
  inr {| training := true; forward := forward model |}.

Definition offline_hub (path : string) : result Model :=
  inl (ExternalError "the hub cannot be reached").

Definition hub_without_vanilla (path : string) : result Model :=
  if String.eqb path "facebook/esm2_t33_650M_UR50D"
  then inl (ExternalError "no such model on the hub")
  else inr model.

(** The data set where the driver cell looks for it. *)
Definition repository_world : world := world_of {[ data_file := labelled ]}.

End Toy.

End Extract.

(** ** The substrate-tolerance notebook *)

Module Predict.

(** *** Data *)

(** Values of hyperparameters. *)
Inductive pyval : Type :=
| VInt (z : Z)
| VFloat (q : Q)
| VStr (s : string)
| VBool (b : bool)
| VTuple (zs : list Z).

(** Keyword arguments and parameter dicts, in insertion order. *)
Definition kwargs : Type := list (string * pyval).

Inductive family : Type :=
| RandomForestClassifier
| AdaBoostClassifier
| SVC
| MLPClassifier.

(** An estimator object: its class and the parameters that were given to
    it; a parameter that was not given has its default, which for
    [random_state] is [None]. *)
Record estimator : Type := { cls : family; params : kwargs }.

Record Pipeline : Type := { steps : list (string * estimator) }.

Record RepeatedKFold : Type := {
  n_splits : nat;
  n_repeats : nat;
  cv_random_state : option Z
}.

(** A fold: the indices of the training rows and of the test rows. *)
Definition fold : Type := (list nat * list nat)%type.

(** *** Python and library operations the notebook calls *)

Definition dict_get {V} (k : string) (d : list (string * V)) : option V :=
  match dict_getitem k d with
  | inr v => Some v
  | inl _ => None
  end.

(** [d[k] = v]: the value is replaced in place, a new key goes last. *)
Fixpoint dict_set {V} (k : string) (v : V) (d : list (string * V)) : list (string * V) :=
  match d with
  | [] => [(k, v)]
  | (k', v') :: rest =>
      if String.eqb k k' then (k, v) :: rest else (k', v') :: dict_set k v rest
  end.

(** [s.replace(old, new)] for a non-empty [old]: the occurrences are found
    from the left and do not overlap. *)
Fixpoint replace_go (old new : string) (skip : nat) (s : string) : string :=
  match s with
  | EmptyString => EmptyString
  | String c rest =>
      match skip with
      | S n => replace_go old new n rest
      | O =>
          if String.prefix old s
          then new +:+ replace_go old new (String.length old - 1) rest
          else String c (replace_go old new 0 rest)
      end
  end.

Definition str_replace (s old new : string) : string := replace_go old new 0 s.

(** The seed an estimator or a splitter was given, if any. *)
Definition get_random_state (e : estimator) : option Z :=
  match dict_get "random_state" (params e) with
  | Some (VInt z) => Some z
  | _ => None
  end.

(** The calls [Class()] and [Class] applied to the unpacked dict [kw] and
    [random_state=seed].  Python refuses a keyword that is given twice.
    That a class also refuses a keyword it does not have is not modelled
    here. *)
Definition construct_default (c : family) : estimator :=
  {| cls := c; params := [] |}.

Definition construct_seeded (c : family) (kw : kwargs) (seed : Z) : result estimator :=
  if dict_contains "random_state" kw
  then inl (TypeError "got multiple values for keyword argument 'random_state'")
  else inr {| cls := c; params := (kw ++ [("random_state", VInt seed)])%list |}.

Definition n_samples (a : ndarray) : nat :=
  match a with
  | Arr1 v => length v
  | Arr2 _ data => length data
  end.

(** [a.reshape(-1, k)] on a one-dimensional array, in row-major order:
    rows of [k] consecutive elements, cut off the front one after the other. *)
Fixpoint chunks {A} (fuel k : nat) (xs : list A) : list (list A) :=
  match fuel with
  | O => []
  | S fuel' =>
      match xs with
      | [] => []
      | _ :: _ => take k xs :: chunks fuel' k (drop k xs)
      end
  end.

Definition reshape_rows (k : nat) (xs : list scalar) : result (list (list scalar)) :=
  match k with
  | O => inl (ValueError "cannot reshape array")
  | S _ =>
      if (length xs mod k =? 0)%nat
      then inr (chunks (length xs) k xs)
      else inl (ValueError ("cannot reshape array of size " +:+ pretty (length xs)
                            +:+ " into shape (" +:+ pretty k +:+ ")"))
  end.

(** [np.mean(m, axis=1)]: one mean per row. *)
Definition mean_axis1 (m : list (list scalar)) : list scalar := map mean m.

(** [ParameterGrid(grid)]: every combination of candidate values, the keys
    in sorted order and the last key varying fastest. *)
Fixpoint insert_sorted {V} (kv : string * V) (d : list (string * V)) : list (string * V) :=
  match d with
  | [] => [kv]
  | kv' :: rest =>
      if String.leb (fst kv) (fst kv') then kv :: d else kv' :: insert_sorted kv rest
  end.

Definition sorted_items {V} (d : list (string * V)) : list (string * V) :=
  foldr insert_sorted [] d.

Fixpoint product (grid : list (string * list pyval)) : list kwargs :=
  match grid with
  | [] => [[]]
  | (k, vs) :: rest => flat_map (fun v => map (cons (k, v)) (product rest)) vs
  end.

Definition ParameterGrid (grid : list (string * list pyval)) : list kwargs :=
  product (sorted_items grid).

(** A score is lower than another; a NaN is lower than every number. *)
Definition worse (a b : scalar) : bool :=
  match a, b with
  | Fin x, Fin y => negb (Qle_bool y x)
  | NaN, Fin _ => true
  | _, NaN => false
  end.

(** The first entry of the best score ([rank_test_score.argmin()]). *)
Fixpoint best_of {A} (current : A * scalar) (rest : list (A * scalar)) : A :=
  match rest with
  | [] => fst current
  | c :: rest' =>
      if worse (snd current) (snd c) then best_of c rest' else best_of current rest'
  end.

Definition score_or_nan (r : result Q) : scalar :=
  match r with
  | inr q => Fin q
  | inl _ => NaN
  end.

(** The part of a key [step__name] after the step and the two underscores. *)
Definition param_name (step key : string) : string :=
  String.substring (String.length step + 2)
                   (String.length key - (String.length step + 2)) key.


Section Sklearn.

(** The generators of pseudo-random numbers, [RandomState(seed)], and
    the state of the global generator when the run starts. *)
Variable rng : Type.
Variable RandomState : Z -> rng.

(** [KFold(n_splits, shuffle=True, random_state=g).split] over [n] rows:
    the folds, and the state in which the generator is left. *)
Variable KFold_split : nat -> nat -> rng -> result (list fold * rng).

(** [StratifiedKFold(k).split], which does not shuffle. *)
Variable StratifiedKFold_split : nat -> list cell -> result (list fold).

(** The names of the parameters of each estimator class. *)
Variable accepts : family -> string -> bool.

(** Fitting a clone of an estimator on the training rows of a fold with
    the generator it resolves to, and its balanced accuracy on the test
    rows; an exception when the fit fails. *)
Variable fit_and_score :
  family -> kwargs -> rng -> ndarray -> list cell -> fold -> result Q.

(** [check_random_state]: a seed gives a fresh generator of that seed,
    [None] the global generator.  The global generator is given by its
    state when the run starts, [ambient], of which its state at any later
    draw is a function. *)
Definition check_random_state (random_state : option Z) (ambient : rng) : rng :=
  match random_state with
  | Some seed => RandomState seed
  | None => ambient
  end.

Definition fit_and_score_estimator (e : estimator) (X : ndarray) (y : list cell)
    (ambient : rng) (f : fold) : result Q :=
  fit_and_score (cls e) (params e)
                (check_random_state (get_random_state e) ambient) X y f.

(** [RepeatedKFold.split]: one generator for the whole call, handed from
    one repeat to the next; the folds come repeat after repeat. *)
Fixpoint repeated_split (repeats splits n : nat) (g : rng) : result (list fold) :=
  match repeats with
  | O => inr []
  | S repeats' =>
      '(folds, g') ← KFold_split splits n g;
      more ← repeated_split repeats' splits n g';
      mret (folds ++ more)%list
  end.

Definition split (cv : RepeatedKFold) (n : nat) (ambient : rng) : result (list fold) :=
  repeated_split (n_repeats cv) (n_splits cv) n
                 (check_random_state (cv_random_state cv) ambient).

(** With the default [error_score], a fit that fails scores NaN, and the
    call raises when every fit failed. *)
Definition all_failed {A} (rs : list (result A)) : bool :=
  match rs with
  | [] => false
  | _ :: _ => forallb (fun r => negb (is_ok r)) rs
  end.

(** [cross_val_score(e, X, y, cv=cv, n_jobs=-1, scoring='balanced_accuracy')] *)
Definition cross_val_score (e : estimator) (X : ndarray) (y : list cell)
    (cv : RepeatedKFold) (ambient : rng) : result (list scalar) :=
  if negb (n_samples X =? length y)%nat
  then inl (ValueError "Found input variables with inconsistent numbers of samples")
  else
    folds ← split cv (n_samples X) ambient;
    let fits := map (fit_and_score_estimator e X y ambient) folds in
    if all_failed fits
    then inl (ValueError "All the fits failed")
    else mret (map score_or_nan fits).

(** [pipeline.set_params] applied to an unpacked candidate: a key
    [classifier__name] sets the parameter [name] of the step [classifier]. *)
Definition set_param (key : string) (v : pyval) (p : Pipeline) : result Pipeline :=
  match steps p with
  | [(step, e)] =>
      let name := param_name step key in
      if String.prefix (step +:+ "__") key && accepts (cls e) name
      then inr {| steps := [(step, {| cls := cls e; params := dict_set name v (params e) |})] |}
      else inl (ValueError ("Invalid parameter " +:+ key))
  | _ => inl (ValueError ("Invalid parameter " +:+ key))
  end.

Fixpoint set_params (candidate : kwargs) (p : Pipeline) : result Pipeline :=
  match candidate with
  | [] => inr p
  | (key, v) :: rest => p' ← set_param key v p; set_params rest p'
  end.

Definition final_estimator (p : Pipeline) : result estimator :=
  match last (steps p) with
  | Some (_, e) => inr e
  | None => inl (ValueError "not enough values to unpack")
  end.

(** [GridSearchCV(pipeline, grid, n_jobs=-1, cv=k, scoring='balanced_accuracy')
    .fit(X, y).best_params_] *)
Definition GridSearchCV_fit (pipeline : Pipeline) (grid : list (string * list pyval))
    (k : nat) (X : ndarray) (y : list cell) (ambient : rng) : result kwargs :=
  if negb (n_samples X =? length y)%nat
  then inl (ValueError "Found input variables with inconsistent numbers of samples")
  else
    folds ← StratifiedKFold_split k y;
    fits ← list_comprehension
             (fun candidate =>
                p ← set_params candidate pipeline;
                e ← final_estimator p;
                mret (candidate, map (fit_and_score_estimator e X y ambient) folds))
             (ParameterGrid grid);
    if all_failed (flat_map snd fits)
    then inl (ValueError "All the fits failed")
    else
      match map (fun cf => (fst cf, mean (map score_or_nan (snd cf)))) fits with
      | [] => inl (ValueError "Parameter grid needs to be a non-empty sequence")
      | first :: rest => inr (best_of first rest)
      end.

(** *** The notebook's own code *)

(** The data-loading cell. *)
Definition dataset_csv : string :=
  "../data/data_for_substrate_tolerance_prediction/FusA_tolerance_dataset.csv".
Definition embeddings_npy : string :=
  "../data/data_for_substrate_tolerance_prediction/FusA_LassoESM.npy".

Definition load_data : M (ndarray * list cell) :=
  data ← read_csv dataset_csv;
  ys ← lift (iloc_column 1 data);
  Xs ← np_load embeddings_npy;
  mret (Xs, ys).

(** Models and hyperparameters for the grid search. *)
Definition model_list : list family :=
  [RandomForestClassifier; AdaBoostClassifier; SVC; MLPClassifier].

Definition model_names : list string := ["RF"; "AdaBoost"; "SVC"; "MLP"].

Definition parameters_list : list (list (string * list pyval)) :=
  [ [ ("classifier__n_estimators", [VInt 20; VInt 50; VInt 100; VInt 200]);
      ("classifier__max_depth", [VInt 10; VInt 20; VInt 50; VInt 100]);
      ("classifier__max_features", [VStr "sqrt"; VStr "log2"]) ];
    [ ("classifier__n_estimators", [VInt 20; VInt 50; VInt 100; VInt 200]);
      ("classifier__learning_rate", [VFloat (1 # 10); VInt 1; VInt 5; VInt 10]) ];
    [ ("classifier__kernel", [VStr "linear"; VStr "rbf"; VStr "sigmoid"; VStr "poly"]);
      ("classifier__C", [VFloat (1 # 10); VInt 1; VInt 10]) ];
    [ ("classifier__hidden_layer_sizes",
       [VInt 32; VInt 64; VInt 128; VInt 256; VInt 512;
        VTuple [512; 64]; VTuple [256; 32]; VTuple [128; 32]]%Z);
      ("classifier__batch_size", [VInt 16; VInt 32]);
      ("classifier__learning_rate_init", [VFloat (1 # 100); VFloat (1 # 1000)]);
      ("classifier__max_iter", [VInt 1000]);
      ("classifier__early_stopping", [VBool true]) ] ].

(** The pipeline that one turn of the search loop builds. *)
Definition search_pipeline (model : family) : Pipeline :=
  let steps := [("classifier", construct_default model)] in
  {| steps := steps |}.

(** The dict comprehension that strips the step name off the keys. *)
Definition strip_step (best : kwargs) : kwargs :=
  foldl (fun d kv => dict_set (str_replace (fst kv) "classifier__" "") (snd kv) d)
        [] best.

(** The search loop over [zip(model_list, model_names, parameters_list)].
    Its two [print] calls, which format library objects and assign
    nothing, are left out. *)
Definition search_space : list (family * (string * list (string * list pyval))) :=
  combine model_list (combine model_names parameters_list).

Fixpoint search_loop (todo : list (family * (string * list (string * list pyval))))
    (Xs : ndarray) (ys : list cell) (ambient : rng)
    (best_params : list (string * kwargs)) : result (list (string * kwargs)) :=
  match todo with
  | [] => inr best_params
  | (model, (name, parameters)) :: rest =>
      let pipeline := search_pipeline model in
      best ← GridSearchCV_fit pipeline parameters 10 Xs ys ambient;
      search_loop rest Xs ys ambient (dict_set name (strip_step best) best_params)
  end.

Definition grid_search (Xs : ndarray) (ys : list cell) (ambient : rng)
  : result (list (string * kwargs)) :=
  search_loop search_space Xs ys ambient [].

(** The head of [cv_res]: the seed and the four estimators. *)
Definition random_seed : Z := 42.

Definition evaluation_estimators (best_params : list (string * kwargs))
  : result (estimator * estimator * estimator * estimator) :=
  kw ← dict_getitem "RF" best_params;
  RF ← construct_seeded RandomForestClassifier kw random_seed;
  kw ← dict_getitem "AdaBoost" best_params;
  Ada ← construct_seeded AdaBoostClassifier kw random_seed;
  kw ← dict_getitem "SVC" best_params;
  SVM ← construct_seeded SVC kw random_seed;
  kw ← dict_getitem "MLP" best_params;
  MLP ← construct_seeded MLPClassifier kw random_seed;
  mret (RF, Ada, SVM, MLP).

Definition evaluation_cv : RepeatedKFold :=
  {| n_splits := 10; n_repeats := 5; cv_random_state := Some random_seed |}.

(** [np.mean(scores.reshape(-1, 10), axis=1)] *)
Definition repeat_means (scores : list scalar) : result (list scalar) :=
  m ← reshape_rows 10 scores;
  mret (mean_axis1 m).

Definition cv_res (Xs : ndarray) (ys : list cell)
    (best_params : list (string * kwargs)) (ambient : rng)
  : result (list (string * list scalar)) :=
  '(RF, Ada, SVM, MLP) ← evaluation_estimators best_params;
  let cv := evaluation_cv in
  MLP_CV ← cross_val_score MLP Xs ys cv ambient;
  RF_CV ← cross_val_score RF Xs ys cv ambient;
  Ada_CV ← cross_val_score Ada Xs ys cv ambient;
  SVC_CV ← cross_val_score SVM Xs ys cv ambient;
  rf ← repeat_means RF_CV;
  ada ← repeat_means Ada_CV;
  svc ← repeat_means SVC_CV;
  mlp ← repeat_means MLP_CV;
  mret [ ("RF", rf); ("AdaBoost", ada); ("SVC", svc); ("MLP", mlp) ].

(** The scores of an estimator over given folds with a given generator:
    what [cross_val_score] comes to once its splitter and its estimator
    are seeded. *)
Definition scores_over (folds : result (list fold)) (g : rng)
    (e : estimator) (X : ndarray) (y : list cell) : result (list scalar) :=
  if negb (n_samples X =? length y)%nat
  then inl (ValueError "Found input variables with inconsistent numbers of samples")
  else
    folds ← folds;
    let fits := map (fit_and_score (cls e) (params e) g X y) folds in
    if all_failed fits
    then inl (ValueError "All the fits failed")
    else mret (map score_or_nan fits).


End Sklearn.

(** *** Notions used to state properties of the notebook *)

(** [old in s] *)
Fixpoint str_contains (old s : string) : bool :=
  String.prefix old s ||
  match s with
  | EmptyString => false
  | String _ rest => str_contains old rest
  end.

(** A parameter dict with its keys as a grid of the notebook writes them,
    behind the name of the pipeline step. *)
Definition with_step (kw : kwargs) : kwargs :=
  map (fun kv => ("classifier__" +:+ fst kv, snd kv)) kw.

(** The folds of [RepeatedKFold.split], kept apart repeat by repeat. *)
Fixpoint repeated_groups (rng : Type)
    (KFold_split : nat -> nat -> rng -> result (list fold * rng))
    (repeats splits n : nat) (g : rng) : result (list (list fold)) :=
  match repeats with
  | O => inr []
  | S repeats' =>
      '(folds, g') ← KFold_split splits n g;
      more ← repeated_groups rng KFold_split repeats' splits n g';
      mret (folds :: more)
  end.

(** The mean score of each group of folds. *)
Definition per_repeat (score : fold -> scalar) (groups : list (list fold)) : list scalar :=
  map (fun grp => mean (map score grp)) groups.

(** *** Small collaborators to run the notebook on

    Generators are integers and [RandomState] is the identity; a split
    into [k] folds tests the rows [0] to [k-1] one by one and steps the
    generator; every parameter name is accepted; and a fit scores by its
    [n_estimators], in a sense that the parity of its generator decides:
    under an even generator the smaller forest scores higher, under an odd
    one the larger. *)

Module Toy.

Definition RandomState (seed : Z) : Z := seed.

Definition KFold_split (splits n : nat) (g : Z) : result (list fold * Z) :=
  inr (map (fun i => ([Z.to_nat g], [i])) (seq 0 splits), (g + 1)%Z).

Definition StratifiedKFold_split (k : nat) (y : list cell) : result (list fold) :=
  inr (map (fun i => ([], [i])) (seq 0 k)).

Definition accepts (c : family) (name : string) : bool := true.

Definition fit_and_score (c : family) (kw : kwargs) (g : Z)
    (X : ndarray) (y : list cell) (f : fold) : result Q :=
  match dict_get "n_estimators" kw with
  | Some (VInt n) =>
      if Z.even g then inr (1 / inject_Z (1 + n))%Q else inr (inject_Z n / 1000)%Q
  | _ => inr (1 # 2)
  end.

Definition grid_search :=
  Predict.grid_search Z RandomState StratifiedKFold_split accepts fit_and_score.

Definition cv_res :=
  Predict.cv_res Z RandomState KFold_split fit_and_score.

Definition Xs : ndarray := Arr2 1 [[Fin 1]; [Fin 2]].
Definition ys : list cell := [CInt 1; CInt 0].

(** The best parameters that the notebook printed. *)
Definition best_params : list (string * kwargs) :=
  [ ("RF", [("max_depth", VInt 10); ("max_features", VStr "sqrt");
            ("n_estimators", VInt 50)]);
    ("AdaBoost", [("learning_rate", VFloat (1 # 10)); ("n_estimators", VInt 100)]);
    ("SVC", [("C", VInt 1); ("kernel", VStr "linear")]);
    ("MLP", [("batch_size", VInt 32); ("early_stopping", VBool true);
             ("hidden_layer_sizes", VTuple [256; 32]%Z);
             ("learning_rate_init", VFloat (1 # 1000)); ("max_iter", VInt 1000)]) ].

(** What the search returns on these collaborators under the generator 0. *)
Definition searched : list (string * kwargs) :=
  [ ("RF", [("max_depth", VInt 10); ("max_features", VStr "sqrt");
            ("n_estimators", VInt 20)]);
    ("AdaBoost", [("learning_rate", VFloat (1 # 10)); ("n_estimators", VInt 20)]);
    ("SVC", [("C", VFloat (1 # 10)); ("kernel", VStr "linear")]);
    ("MLP", [("batch_size", VInt 16); ("early_stopping", VBool true);
             ("hidden_layer_sizes", VInt 32);
             ("learning_rate_init", VFloat (1 # 100)); ("max_iter", VInt 1000)]) ].

(** The estimator that the evaluation builds for a family from the best
    parameters above, and the folds of its five repeats. *)
Definition seeded (c : family) (name : string) : estimator :=
  {| cls := c;
     params := (match dict_getitem name best_params with
                | inr kw => kw
                | inl _ => []
                end ++ [("random_state", VInt 42)])%list |}.

Definition groups : list (list fold) :=
  map (fun r => map (fun i => ([(42 + r)%nat], [i])) (seq 0 10)) (seq 0 5).

End Toy.

End Predict.

(** * Properties *)

(** ** Generic facts about the plumbing *)

Module PyFacts.

(** A comprehension completes exactly when every call does, and then holds
    the values of the calls, in the order of the list. *)
Lemma list_comprehension_inr {A B} (f : A -> result B) (xs : list A) (ys : list B) :
  list_comprehension f xs = inr ys <-> Forall2 (fun x y => f x = inr y) xs ys.
Proof.
  revert ys. induction xs as [|x xs IH]; intros ys; simpl.
  - split.
    + intros [= <-]. constructor.
    + intros H. inversion H. reflexivity.
  - destruct (f x) as [e|y] eqn:Hfx; simpl.
    + split; [discriminate|]. intros H. inversion H as [|? y' ? ys'' Hy Hys]; subst.
      rewrite Hfx in Hy. discriminate.
    + destruct (list_comprehension f xs) as [e|ys'] eqn:Hrest; simpl.
      * split; [discriminate|]. intros H. inversion H as [|? y' ? ys'' Hy Hys]; subst.
        apply IH in Hys. discriminate.
      * split.
        -- intros [= <-]. constructor; [assumption|]. apply IH. reflexivity.
        -- intros H. inversion H as [|? y' ? ys'' Hy Hys]; subst.
           apply IH in Hys. rewrite Hfx in Hy.
           injection Hy as <-. injection Hys as <-. reflexivity.
Qed.

(** One call that raises makes the whole comprehension raise. *)
Lemma list_comprehension_inl {A B} (f : A -> result B) (xs : list A) (x : A) (e : exn) :
  x ∈ xs -> f x = inl e -> exists e', list_comprehension f xs = inl e'.
Proof.
  induction xs as [|x0 xs IH]; intros Hin Hx.
  - inversion Hin.
  - simpl. apply elem_of_cons in Hin as [->|Hin].
    + rewrite Hx. eauto.
    + destruct (f x0) as [e0|y0]; simpl; [eauto|].
      destruct (IH Hin Hx) as [e' ->]. simpl. eauto.
Qed.

Lemma dict_contains_false {V} (k : string) (d : list (string * V)) :
  k ∉ dict_keys d -> dict_contains k d = false.
Proof.
  unfold dict_contains. induction (dict_keys d) as [|k' ks IH]; intros Hk; simpl.
  - reflexivity.
  - apply not_elem_of_cons in Hk as [Hne Hk].
    rewrite (IH Hk), orb_false_r. apply String.eqb_neq. exact Hne.
Qed.

Lemma dict_getitem_contains {V} (k : string) (d : list (string * V)) (v : V) :
  dict_getitem k d = inr v -> dict_contains k d = true.
Proof.
  unfold dict_contains. induction d as [|[k' v'] d IH]; simpl; [discriminate|].
  destruct (String.eqb k k'); [reflexivity|]. exact IH.
Qed.

Lemma Forall2_map_left {A B C} (g : A -> B) (P : B -> C -> Prop)
    (xs : list A) (ys : list C) :
  Forall2 P (map g xs) ys <-> Forall2 (fun x y => P (g x) y) xs ys.
Proof.
  revert ys. induction xs as [|x xs IH]; intros ys; simpl.
  - split; intros H; inversion H; constructor.
  - split; intros H; inversion H; subst; constructor; try assumption; apply IH; assumption.
Qed.

(** Vectors of one length stack into a matrix with that many columns. *)
Lemma np_array_uniform (vs : list (list scalar)) (d : nat) :
  vs <> [] -> Forall (fun v => length v = d) vs -> np_array vs = inr (Arr2 d vs).
Proof.
  destruct vs as [|v rest]; [congruence|]. intros _ H.
  apply Forall_cons in H as [Hv Hrest]. unfold np_array.
  replace (forallb (fun u : list scalar => (length u =? length v)%nat) rest) with true.
  - rewrite Hv. reflexivity.
  - symmetry. apply forallb_forall. intros u Hu.
    rewrite Forall_forall in Hrest. apply Nat.eqb_eq.
    rewrite Hv. apply Hrest. apply list_elem_of_In. exact Hu.
Qed.

End PyFacts.

(** ** The embedding-extraction notebook *)

Module ExtractFacts.

Import PyFacts Extract.

(** The three entries of the configuration. *)
Lemma MODELS_getitem (model_name : string) (cfg : config) :
  dict_getitem model_name MODELS = inr cfg ->
  (model_name, cfg) ∈ MODELS.
Proof.
  unfold MODELS. simpl.
  repeat (destruct (String.eqb model_name _) eqn:E;
          [apply String.eqb_eq in E; subst; intros [= <-];
           repeat (first [apply list_elem_of_here | apply list_elem_of_further]) |]; clear E).
  discriminate.
Qed.

Lemma MODELS_npy_name (model_name : string) (cfg : config) :
  dict_getitem model_name MODELS = inr cfg ->
  npy_name (output_file cfg) = output_file cfg.
Proof.
  intros H. apply MODELS_getitem in H. unfold MODELS in H.
  repeat (apply elem_of_cons in H as [[= -> ->]|H]; [reflexivity|]).
  inversion H.
Qed.

(** What [get_mean_rep] returns once the tokenizer and the encoder have
    answered: the column means of the first tensor of the last layer. *)
Lemma get_mean_rep_eq (sequence : cell) (model : Model) (tokenizer : Tokenizer)
    (enc : BatchEncoding) (out : ModelOutput) (rep : tensor2) (others : list tensor2) :
  tokenizer sequence = inr enc ->
  forward model (training model) (input_ids enc) = inr out ->
  last (hidden_states out) = Some (rep :: others) ->
  get_mean_rep sequence model tokenizer = inr (mean_dim0 rep).
Proof.
  intros Htok Hfwd Hlast. unfold get_mean_rep.
  rewrite Htok. simpl. rewrite Hfwd. simpl.
  unfold index_last. rewrite Hlast. reflexivity.
Qed.

Lemma mean_dim0_length (rep : tensor2) : length (mean_dim0 rep) = t_cols rep.
Proof. unfold mean_dim0. rewrite length_map, length_seq. reflexivity. Qed.

Lemma mean_dim0_lookup (rep : tensor2) (j : nat) :
  (j < t_cols rep)%nat -> mean_dim0 rep !! j = Some (mean (column j rep)).
Proof.
  intros Hj. unfold mean_dim0.
  change (map (fun j0 => mean (column j0 rep)) (seq 0 (t_cols rep)))
    with ((fun j0 => mean (column j0 rep)) <$> seq 0 (t_cols rep)).
  rewrite list_lookup_fmap.
  assert (Hseq : seq 0 (t_cols rep) !! j = Some j) by (apply lookup_seq; split; [reflexivity|exact Hj]).
  rewrite Hseq. reflexivity.
Qed.

(** Reading a list by its indices gives the list back. *)
Lemma map_nth_seq {A B} (f : A -> B) (d : A) (xs : list A) :
  map (fun i => f (nth i xs d)) (seq 0 (length xs)) = map f xs.
Proof.
  induction xs as [|x xs IH]; [reflexivity|].
  simpl. f_equal. rewrite <- seq_shift, map_map. exact IH.
Qed.

(** C2. For a sequence that the tokenizer and an encoder of hidden width
    [H] accept, [get_mean_rep] returns the means over the token axis of
    the last hidden-state layer, one per hidden unit: a vector of length
    [H], however many tokens the sequence has. *)
Theorem get_mean_rep_length (sequence : cell) (model : Model) (tokenizer : Tokenizer)
    (H : nat) (enc : BatchEncoding) (out : ModelOutput)
    (rep : tensor2) (others : list tensor2) :
  hidden_width model H ->
  tokenizer sequence = inr enc ->
  forward model (training model) (input_ids enc) = inr out ->
  last (hidden_states out) = Some (rep :: others) ->
  exists v,
    get_mean_rep sequence model tokenizer = inr v /\
    length v = H /\
    forall j, (j < H)%nat ->
      v !! j = Some (mean (map (fun token_row => nth j token_row NaN) (t_rows rep))).
Proof.
  intros Hw Htok Hfwd Hlast.
  assert (Hcols : t_cols rep = H).
  { apply (Hw (training model) (input_ids enc) out (rep :: others) rep Hfwd).
    - apply list_elem_of_In. apply last_Some in Hlast as [l' ->].
      apply in_or_app. right. left. reflexivity.
    - apply elem_of_cons. left. reflexivity. }
  exists (mean_dim0 rep). split; [|split].
  - eapply get_mean_rep_eq; eassumption.
  - rewrite mean_dim0_length. exact Hcols.
  - intros j Hj. apply mean_dim0_lookup. rewrite Hcols. exact Hj.
Qed.

(** C10. The mean is taken over every row of the final hidden-state
    matrix: with one row per token id that the tokenizer gave, markers of
    the beginning and the end of the sequence included, component [j] of
    the result is the sum over all the positions [0], ..., [length ids - 1]
    of the entries of column [j], divided by [length ids].  No position is
    left out. *)
Theorem get_mean_rep_pools_every_position (sequence : cell) (model : Model)
    (tokenizer : Tokenizer) (enc : BatchEncoding) (ids : list Z) (more : list (list Z))
    (out : ModelOutput) (rep : tensor2) (others : list tensor2) :
  tokenizer sequence = inr enc ->
  input_ids enc = ids :: more ->
  forward model (training model) (input_ids enc) = inr out ->
  last (hidden_states out) = Some (rep :: others) ->
  length (t_rows rep) = length ids ->
  exists v,
    get_mean_rep sequence model tokenizer = inr v /\
    length v = t_cols rep /\
    forall j, (j < t_cols rep)%nat ->
      v !! j =
      Some (sdiv_count
              (ssum (map (fun position => nth j (nth position (t_rows rep) []) NaN)
                         (seq 0 (length ids))))
              (length ids)).
Proof.
  intros Htok Hids Hfwd Hlast Hrows.
  exists (mean_dim0 rep). split; [|split].
  - eapply get_mean_rep_eq; eassumption.
  - apply mean_dim0_length.
  - intros j Hj. rewrite (mean_dim0_lookup _ _ Hj).
    unfold mean, column. rewrite length_map, <- Hrows.
    rewrite (map_nth_seq (fun r => nth j r NaN) [] (t_rows rep)). reflexivity.
Qed.

Section Hub.

Variable hub_model : string -> result Model.
Variable hub_tokenizer : string -> result Tokenizer.

Abbreviation process := (process_embeddings hub_model hub_tokenizer).

#[local] Opaque MODELS.

(** What a run that gets through every step leaves behind. *)
Lemma process_embeddings_completes (w : world) (data_file model_name : string)
    (cfg : config) (model : Model) (tokenizer : Tokenizer)
    (name : string) (names : list string) (body : list (list cell))
    (vs : list (list scalar)) (a : ndarray) :
  dict_getitem model_name MODELS = inr cfg ->
  hub_model (model_path cfg) = inr model ->
  hub_tokenizer (model_path cfg) = inr tokenizer ->
  files w !! data_file = Some (CsvFile (name :: names) body) ->
  list_comprehension (fun seq => get_mean_rep seq (eval model) tokenizer)
                     (map (fun r => nth 0 r CNaN) body) = inr vs ->
  np_array vs = inr a ->
  output_file cfg ∉ readonly w ->
  process data_file model_name w =
    (inr tt,
     {| files := <[output_file cfg := NpyFile a]> (files w);
        readonly := readonly w;
        stdout := stdout w ++
          [ "Loading model: " +:+ model_name;
            "Number of sequences: " +:+ pretty (length body);
            "Embeddings saved to: " +:+ output_file cfg;
            "Shape of embeddings: " +:+ repr_tuple (shape a) ] |}).
Proof.
  intros Hcfg Hm Ht Hfile Hvs Ha Hro.
  unfold process_embeddings.
  rewrite (dict_getitem_contains _ _ _ Hcfg). simpl.
  unfold mbind, M_bind, lift, print, read_csv, np_save. simpl.
  rewrite Hcfg, Hm, Ht. simpl. rewrite Hfile. simpl.
  rewrite length_map, Hvs, Ha. simpl.
  rewrite (MODELS_npy_name _ _ Hcfg).
  destruct (decide (output_file cfg ∈ readonly w)) as [Hin|_]; [contradiction|].
  simpl. rewrite <- !app_assoc. reflexivity.
Qed.

(** A run either raises and leaves every file as it was, or completes
    and has replaced the one file its configuration names. *)
Lemma process_embeddings_outcome (w w' : world) (data_file model_name : string)
    (r : result unit) :
  process data_file model_name w = (r, w') ->
  (exists e, r = inl e /\ files w' = files w) \/
  (r = inr tt /\
   exists cfg a, dict_getitem model_name MODELS = inr cfg /\
                 files w' = <[output_file cfg := NpyFile a]> (files w)).
Proof.
  unfold process_embeddings.
  destruct (dict_contains model_name MODELS); simpl.
  2:{ unfold raise. intros [= <- <-]. left. eauto. }
  unfold mbind, M_bind, lift, print, read_csv, np_save. simpl.
  destruct (dict_getitem model_name MODELS) as [e|cfg] eqn:Hcfg; simpl.
  { intros [= <- <-]. left. eauto. }
  destruct (hub_model (model_path cfg)) as [e|model]; simpl.
  { intros [= <- <-]. left. eauto. }
  destruct (hub_tokenizer (model_path cfg)) as [e|tokenizer]; simpl.
  { intros [= <- <-]. left. eauto. }
  destruct (files w !! data_file) as [[|[|name names] body|a0]|]; simpl;
    try (intros [= <- <-]; left; eauto).
  destruct (list_comprehension _ _) as [e|vs]; simpl.
  { intros [= <- <-]. left. eauto. }
  destruct (np_array vs) as [e|a]; simpl.
  { intros [= <- <-]. left. eauto. }
  rewrite (MODELS_npy_name _ _ Hcfg).
  destruct (decide (output_file cfg ∈ readonly w)); simpl.
  { intros [= <- <-]. left. eauto. }
  intros [= <- <-]. right. split; [reflexivity|]. exists cfg, a. split; reflexivity.
Qed.

(** The rows of a data set that all embed, to vectors of one length. *)
Lemma embeddings_of_rows (model : Model) (tokenizer : Tokenizer)
    (body : list (list cell)) (d : nat) :
  (forall row, row ∈ body ->
     exists v, get_mean_rep (nth 0 row CNaN) model tokenizer = inr v /\ length v = d) ->
  exists vs,
    Forall2 (fun row v => get_mean_rep (nth 0 row CNaN) model tokenizer = inr v) body vs /\
    Forall (fun v => length v = d) vs.
Proof.
  induction body as [|row body IH]; intros H.
  - exists []. split; constructor.
  - destruct IH as (vs & Hvs & Hd).
    { intros r Hr. apply H. apply elem_of_cons. right. exact Hr. }
    destruct (H row) as (v & Hv & Hlen).
    { apply elem_of_cons. left. reflexivity. }
    exists (v :: vs). split; constructor; assumption.
Qed.

(** C1. For a non-empty data set whose sequences all embed (to vectors of
    the model's width [d]), [process_embeddings] completes and the matrix
    it saves under the configured name has one row per record of the
    file, and row [i] is [get_mean_rep] of the sequence of record [i]:
    as many rows as sequences, in file order. *)
Theorem process_embeddings_rows (w : world) (data_file model_name : string)
    (cfg : config) (model : Model) (tokenizer : Tokenizer)
    (name : string) (names : list string) (body : list (list cell)) (d : nat) :
  dict_getitem model_name MODELS = inr cfg ->
  hub_model (model_path cfg) = inr model ->
  hub_tokenizer (model_path cfg) = inr tokenizer ->
  files w !! data_file = Some (CsvFile (name :: names) body) ->
  body <> [] ->
  output_file cfg ∉ readonly w ->
  (forall row, row ∈ body ->
     exists v, get_mean_rep (nth 0 row CNaN) (eval model) tokenizer = inr v /\
               length v = d) ->
  exists data w',
    process data_file model_name w = (inr tt, w') /\
    files w' !! output_file cfg = Some (NpyFile (Arr2 d data)) /\
    length data = length body /\
    forall i row, body !! i = Some row ->
      exists v, data !! i = Some v /\
                get_mean_rep (nth 0 row CNaN) (eval model) tokenizer = inr v.
Proof.
  intros Hcfg Hm Ht Hfile Hbody Hro Hrows.
  destruct (embeddings_of_rows _ _ _ _ Hrows) as (vs & Hvs & Hd).
  assert (Hlen : length body = length vs) by (eapply Forall2_length; exact Hvs).
  assert (Hne : vs <> []).
  { intros ->. destruct body; [congruence|discriminate]. }
  eexists vs, _. split; [|split; [|split]].
  - eapply process_embeddings_completes; try eassumption.
    + apply list_comprehension_inr, Forall2_map_left. exact Hvs.
    + apply (np_array_uniform vs d); assumption.
  - simpl. apply lookup_insert_eq.
  - symmetry. exact Hlen.
  - intros i row Hi.
    destruct (Forall2_lookup_l _ _ _ _ _ Hvs Hi) as (v & Hv & Hrep). eauto.
Qed.

(** C3. When the sequence of some record fails to embed, the call raises
    and the files are what they were: no matrix, whole or partial, is
    written. *)
Theorem process_embeddings_all_or_nothing (w : world) (data_file model_name : string)
    (cfg : config) (model : Model) (tokenizer : Tokenizer)
    (name : string) (names : list string) (body : list (list cell))
    (row : list cell) (e : exn) :
  dict_getitem model_name MODELS = inr cfg ->
  hub_model (model_path cfg) = inr model ->
  hub_tokenizer (model_path cfg) = inr tokenizer ->
  files w !! data_file = Some (CsvFile (name :: names) body) ->
  row ∈ body ->
  get_mean_rep (nth 0 row CNaN) (eval model) tokenizer = inl e ->
  exists e' w',
    process data_file model_name w = (inl e', w') /\ files w' = files w.
Proof.
  intros Hcfg Hm Ht Hfile Hrow He.
  assert (Hfail : exists e', list_comprehension
            (fun seq => get_mean_rep seq (eval model) tokenizer)
            (map (fun r => nth 0 r CNaN) body) = inl e').
  { eapply list_comprehension_inl; [|exact He].
    apply list_elem_of_In. apply (in_map (fun r => nth 0 r CNaN) body row).
    apply list_elem_of_In. exact Hrow. }
  destruct Hfail as [e' Hfail].
  exists e'. eexists. split.
  - unfold process_embeddings.
    rewrite (dict_getitem_contains _ _ _ Hcfg). simpl.
    unfold mbind, M_bind, lift, print, read_csv. simpl.
    rewrite Hcfg, Hm, Ht. simpl. rewrite Hfile. simpl.
    rewrite Hfail. simpl. reflexivity.
  - reflexivity.
Qed.

(** C4. For a model name that is not a key of [MODELS] the call raises
    the [ValueError] that names it, and the world is untouched: nothing
    is written, nothing is even printed. *)
Theorem process_embeddings_unknown_model (w : world) (data_file model_name : string) :
  model_name ∉ dict_keys MODELS ->
  process data_file model_name w =
    (inl (ValueError ("Model " +:+ model_name +:+
            " not configured. Available models: ['Lasso_ESM', 'VanillaESM', 'PeptideESM']")),
     w).
Proof.
  intros Hk. unfold process_embeddings.
  rewrite (dict_contains_false _ _ Hk). reflexivity.
Qed.

(** C8, as the code has it.  For a configured model whose encoder and
    tokenizer load: an input file that is empty (no column to parse)
    makes [read_csv] raise its [EmptyDataError], which leaves
    [process_embeddings] at once with every file as it was; whereas a
    file that has the sequence column and nothing else is embedded and
    saved like any other, since the label column is never looked at.  It
    is the loading cell of the prediction notebook that stops on such a
    file, with the [IndexError] of [data.iloc[:, 1]]. *)
Theorem process_embeddings_input_format (w : world) (data_file model_name : string)
    (cfg : config) (model : Model) (tokenizer : Tokenizer) :
  dict_getitem model_name MODELS = inr cfg ->
  hub_model (model_path cfg) = inr model ->
  hub_tokenizer (model_path cfg) = inr tokenizer ->
  (forall body,
     files w !! data_file = Some EmptyFile \/
     files w !! data_file = Some (CsvFile [] body) ->
     exists w',
       process data_file model_name w =
         (inl (EmptyDataError "No columns to parse from file"), w') /\
       files w' = files w) /\
  (forall name body d,
     files w !! data_file = Some (CsvFile [name] body) ->
     body <> [] ->
     output_file cfg ∉ readonly w ->
     (forall row, row ∈ body ->
        exists v, get_mean_rep (nth 0 row CNaN) (eval model) tokenizer = inr v /\
                  length v = d) ->
     exists data w',
       process data_file model_name w = (inr tt, w') /\
       files w' !! output_file cfg = Some (NpyFile (Arr2 d data)) /\
       length data = length body) /\
  (forall name body,
     files w !! Predict.dataset_csv = Some (CsvFile [name] body) ->
     Predict.load_data w =
       (inl (IndexError "single positional indexer is out-of-bounds"), w)).
Proof.
  intros Hcfg Hm Ht. split; [|split].
  - intros body Hfile. eexists. split.
    + unfold process_embeddings.
      rewrite (dict_getitem_contains _ _ _ Hcfg). simpl.
      unfold mbind, M_bind, lift, print, read_csv. simpl.
      rewrite Hcfg, Hm, Ht. simpl.
      destruct Hfile as [-> | ->]; reflexivity.
    + reflexivity.
  - intros name body d Hfile Hbody Hro Hrows.
    destruct (embeddings_of_rows _ _ _ _ Hrows) as (vs & Hvs & Hd).
    assert (Hlen : length body = length vs) by (eapply Forall2_length; exact Hvs).
    assert (Hne : vs <> []).
    { intros ->. destruct body; [congruence|discriminate]. }
    eexists vs, _. split; [|split].
    + eapply process_embeddings_completes; try eassumption.
      * apply list_comprehension_inr, Forall2_map_left. exact Hvs.
      * apply (np_array_uniform vs d); assumption.
    + simpl. apply lookup_insert_eq.
    + symmetry. exact Hlen.
  - intros name body Hfile. unfold Predict.load_data.
    unfold mbind, M_bind, lift, read_csv. rewrite Hfile. reflexivity.
Qed.

#[local] Transparent MODELS.

(** C9, as the code has it.  The artifact of a configured model is the
    one file that its configuration names: the name starts with [FusA_],
    ends with [.npy] and belongs to no other configured model, and a run
    that completes puts the new array there, whatever the file held
    before, and changes no other file. *)
Theorem output_file_convention (w w' : world) (data_file model_name : string)
    (cfg : config) :
  dict_getitem model_name MODELS = inr cfg ->
  process data_file model_name w = (inr tt, w') ->
  startswith (output_file cfg) "FusA_" = true /\
  endswith (output_file cfg) ".npy" = true /\
  (forall other cfg',
     dict_getitem other MODELS = inr cfg' ->
     output_file cfg' = output_file cfg -> other = model_name) /\
  exists a, files w' = <[output_file cfg := NpyFile a]> (files w).
Proof.
  intros Hcfg Hrun.
  pose proof (MODELS_getitem _ _ Hcfg) as Hin.
  split; [|split; [|split]].
  - unfold MODELS in Hin.
    repeat (apply elem_of_cons in Hin as [[= -> ->]|Hin]; [reflexivity|]).
    inversion Hin.
  - unfold MODELS in Hin.
    repeat (apply elem_of_cons in Hin as [[= -> ->]|Hin]; [reflexivity|]).
    inversion Hin.
  - intros other cfg' Hother Hsame.
    apply MODELS_getitem in Hother. unfold MODELS in Hin, Hother.
    repeat (apply elem_of_cons in Hin as [[= -> ->]|Hin]);
      try (inversion Hin; fail);
      repeat (apply elem_of_cons in Hother as [[= -> ->]|Hother]);
      try (inversion Hother; fail);
      first [reflexivity | discriminate Hsame].
  - destruct (process_embeddings_outcome _ _ _ _ _ Hrun)
      as [(e & [=] & _) | (_ & cfg0 & a & Hcfg0 & Hfiles)].
    rewrite Hcfg in Hcfg0. injection Hcfg0 as <-. exists a. exact Hfiles.
Qed.

End Hub.

Abbreviation toy_process :=
  (process_embeddings Toy.hub_model Toy.hub_tokenizer).

(** The run on the small encoder: two sequences in, two rows out. *)
Example process_embeddings_runs :
  files (snd (toy_process "d.csv" "VanillaESM" Toy.labelled_world))
    !! "FusA_VanillaESM.npy" =
    Some (NpyFile (Arr2 2 [[Fin (12 # 4); Fin (4 # 4)]; [Fin (6 # 3); Fin (3 # 3)]])) /\
  stdout (snd (toy_process "d.csv" "VanillaESM" Toy.labelled_world)) =
    [ "Loading model: VanillaESM"; "Number of sequences: 2";
      "Embeddings saved to: FusA_VanillaESM.npy";
      "Shape of embeddings: (2, 2)" ].
Proof. vm_compute. split; reflexivity. Qed.

Lemma toy_rows_embed (body : list (list cell)) :
  body = [[CStr "AC"; CInt 1]; [CStr "A"; CInt 0]] \/ body = [[CStr "AC"]; [CStr "A"]] ->
  forall row, row ∈ body ->
    exists v, get_mean_rep (nth 0 row CNaN) (eval Toy.model) Toy.tokenizer = inr v /\
              length v = 2%nat.
Proof.
  intros [-> | ->] row Hrow;
    (apply elem_of_cons in Hrow as [->|Hrow]; [eexists; split; reflexivity|]);
    (apply elem_of_cons in Hrow as [->|Hrow]; [eexists; split; reflexivity|]);
    inversion Hrow.
Defined.

Lemma process_embeddings_rows_witness :
  exists data w',
    toy_process "d.csv" "VanillaESM" Toy.labelled_world = (inr tt, w') /\
    files w' !! "FusA_VanillaESM.npy" = Some (NpyFile (Arr2 2 data)) /\
    length data = 2%nat /\
    forall i row, [[CStr "AC"; CInt 1]; [CStr "A"; CInt 0]] !! i = Some row ->
      exists v, data !! i = Some v /\
                get_mean_rep (nth 0 row CNaN) (eval Toy.model) Toy.tokenizer = inr v.
Proof.
  apply (process_embeddings_rows Toy.hub_model Toy.hub_tokenizer Toy.labelled_world
           "d.csv" "VanillaESM" Toy.vanilla Toy.model Toy.tokenizer
           "Sequence" ["Label"] [[CStr "AC"; CInt 1]; [CStr "A"; CInt 0]] 2).
  - reflexivity.
  - reflexivity.
  - reflexivity.
  - vm_compute. reflexivity.
  - discriminate.
  - apply not_elem_of_empty.
  - apply toy_rows_embed. left. reflexivity.
Defined.

Lemma get_mean_rep_length_witness :
  exists v,
    get_mean_rep (CStr "AC") Toy.model Toy.tokenizer = inr v /\
    length v = 2%nat /\
    forall j, (j < 2)%nat ->
      v !! j = Some (mean (map (fun token_row => nth j token_row NaN)
                               [[Fin 0; Fin 1]; [Fin (inject_Z 4); Fin 1];
                                [Fin (inject_Z 6); Fin 1]; [Fin (inject_Z 2); Fin 1]])).
Proof.
  apply (get_mean_rep_length (CStr "AC") Toy.model Toy.tokenizer 2
           {| input_ids := [[0; 4; 6; 2]%Z]; attention_mask := [[1; 1; 1; 1]%Z] |}
           {| hidden_states := [ [Toy.embed_tokens [0; 4; 6; 2]%Z];
                                 [Toy.last_layer [0; 4; 6; 2]%Z] ] |}
           (Toy.last_layer [0; 4; 6; 2]%Z) []).
  - intros mode ids out layer rep [= <-] Hlayer Hrep. simpl in Hlayer.
    apply elem_of_cons in Hlayer as [->|Hlayer].
    + apply list_elem_of_In, in_map_iff in Hrep as (x & <- & _). reflexivity.
    + apply elem_of_cons in Hlayer as [->|Hlayer]; [|inversion Hlayer].
      apply list_elem_of_In, in_map_iff in Hrep as (x & <- & _). reflexivity.
  - reflexivity.
  - reflexivity.
  - reflexivity.
Defined.

Lemma get_mean_rep_pools_every_position_witness :
  exists v,
    get_mean_rep (CStr "A") Toy.model Toy.tokenizer = inr v /\
    length v = 2%nat /\
    forall j, (j < 2)%nat ->
      v !! j =
      Some (sdiv_count
              (ssum (map (fun position =>
                            nth j (nth position [[Fin 0; Fin 1]; [Fin (inject_Z 4); Fin 1];
                                                 [Fin (inject_Z 2); Fin 1]] []) NaN)
                         [0; 1; 2]%nat))
              3).
Proof.
  apply (get_mean_rep_pools_every_position (CStr "A") Toy.model Toy.tokenizer
           {| input_ids := [[0; 4; 2]%Z]; attention_mask := [[1; 1; 1]%Z] |}
           [0; 4; 2]%Z []
           {| hidden_states := [ [Toy.embed_tokens [0; 4; 2]%Z];
                                 [Toy.last_layer [0; 4; 2]%Z] ] |}
           (Toy.last_layer [0; 4; 2]%Z) []).
  - reflexivity.
  - reflexivity.
  - reflexivity.
  - reflexivity.
  - reflexivity.
Defined.

Lemma process_embeddings_all_or_nothing_witness :
  exists e' w',
    toy_process "d.csv" "VanillaESM" Toy.too_long_world = (inl e', w') /\
    files w' = files Toy.too_long_world.
Proof.
  apply (process_embeddings_all_or_nothing Toy.hub_model Toy.hub_tokenizer
           Toy.too_long_world "d.csv" "VanillaESM" Toy.vanilla Toy.model Toy.tokenizer
           "Sequence" ["Label"]
           [[CStr "AC"; CInt 1]; [CStr "ACDEFGHIK"; CInt 0]; [CStr "A"; CInt 0]]
           [CStr "ACDEFGHIK"; CInt 0]
           (ExternalError "sequence longer than the context of the model")).
  - reflexivity.
  - reflexivity.
  - reflexivity.
  - vm_compute. reflexivity.
  - apply elem_of_cons. right. apply elem_of_cons. left. reflexivity.
  - reflexivity.
Defined.

Lemma process_embeddings_unknown_model_witness :
  toy_process "d.csv" "ESM3" Toy.labelled_world =
    (inl (ValueError
       "Model ESM3 not configured. Available models: ['Lasso_ESM', 'VanillaESM', 'PeptideESM']"),
     Toy.labelled_world).
Proof.
  apply (process_embeddings_unknown_model Toy.hub_model Toy.hub_tokenizer
           Toy.labelled_world "d.csv" "ESM3").
  unfold MODELS. simpl.
  intros H.
  apply elem_of_cons in H as [H|H]; [discriminate H|].
  apply elem_of_cons in H as [H|H]; [discriminate H|].
  apply elem_of_cons in H as [H|H]; [discriminate H|].
  inversion H.
Defined.

(** C8 as the spec states it fails: a file with the sequence column alone,
    so without the label column, is embedded and its matrix is saved. *)
Lemma missing_label_column_is_embedded :
  files Toy.unlabelled_world !! "d.csv" = Some (CsvFile ["Sequence"] [[CStr "AC"]; [CStr "A"]]) /\
  fst (toy_process "d.csv" "VanillaESM" Toy.unlabelled_world) = inr tt /\
  files (snd (toy_process "d.csv" "VanillaESM" Toy.unlabelled_world))
    !! "FusA_VanillaESM.npy" =
    Some (NpyFile (Arr2 2 [[Fin (12 # 4); Fin (4 # 4)]; [Fin (6 # 3); Fin (3 # 3)]])).
Proof. vm_compute. repeat split; reflexivity. Qed.

(** A file with its header and no record is not turned down either: the
    array of shape [(0,)] is saved. *)
Example header_only_is_embedded :
  fst (toy_process "d.csv" "VanillaESM" Toy.header_only_world) = inr tt /\
  files (snd (toy_process "d.csv" "VanillaESM" Toy.header_only_world))
    !! "FusA_VanillaESM.npy" = Some (NpyFile (Arr1 [])) /\
  last (stdout (snd (toy_process "d.csv" "VanillaESM" Toy.header_only_world))) =
    Some "Shape of embeddings: (0,)".
Proof. vm_compute. repeat split; reflexivity. Qed.

Lemma process_embeddings_input_format_witness :
  (exists w',
     toy_process "d.csv" "VanillaESM" Toy.empty_file_world =
       (inl (EmptyDataError "No columns to parse from file"), w') /\
     files w' = files Toy.empty_file_world) /\
  (exists data w',
     toy_process "d.csv" "VanillaESM" Toy.unlabelled_world = (inr tt, w') /\
     files w' !! "FusA_VanillaESM.npy" = Some (NpyFile (Arr2 2 data)) /\
     length data = 2%nat) /\
  Predict.load_data (Toy.world_of {[ Predict.dataset_csv := Toy.unlabelled ]}) =
    (inl (IndexError "single positional indexer is out-of-bounds"),
     Toy.world_of {[ Predict.dataset_csv := Toy.unlabelled ]}).
Proof.
  split; [|split].
  - apply (proj1 (process_embeddings_input_format Toy.hub_model Toy.hub_tokenizer
                    Toy.empty_file_world "d.csv" "VanillaESM" Toy.vanilla
                    Toy.model Toy.tokenizer eq_refl eq_refl eq_refl) []).
    left. vm_compute. reflexivity.
  - apply (proj1 (proj2 (process_embeddings_input_format Toy.hub_model Toy.hub_tokenizer
                    Toy.unlabelled_world "d.csv" "VanillaESM" Toy.vanilla
                    Toy.model Toy.tokenizer eq_refl eq_refl eq_refl))
             "Sequence" [[CStr "AC"]; [CStr "A"]] 2%nat).
    + vm_compute. reflexivity.
    + discriminate.
    + apply not_elem_of_empty.
    + apply toy_rows_embed. right. reflexivity.
  - apply (proj2 (proj2 (process_embeddings_input_format Toy.hub_model Toy.hub_tokenizer
                    (Toy.world_of {[ Predict.dataset_csv := Toy.unlabelled ]})
                    "d.csv" "VanillaESM" Toy.vanilla
                    Toy.model Toy.tokenizer eq_refl eq_refl eq_refl))
             "Sequence" [[CStr "AC"]; [CStr "A"]]).
    vm_compute. reflexivity.
Defined.

Lemma string_length_append (s1 s2 : string) :
  String.length (s1 +:+ s2) = (String.length s1 + String.length s2)%nat.
Proof. induction s1 as [|c s1 IH]; simpl; [reflexivity|]. rewrite IH. reflexivity. Qed.

(** C9 as the spec states it fails: no prefix makes every configured file
    name the prefix, an underscore, the configured name of the model and
    [.npy]; the file of [Lasso_ESM] is [FusA_LassoESM.npy]. *)
Lemma output_file_is_not_built_from_the_key :
  ~ exists target,
      forall model_name cfg,
        dict_getitem model_name MODELS = inr cfg ->
        output_file cfg = target +:+ "_" +:+ model_name +:+ ".npy".
Proof.
  intros [target H].
  specialize (H "Lasso_ESM" _ eq_refl). simpl in H.
  assert (Hlen : String.length target = 3%nat).
  { apply (f_equal String.length) in H. rewrite string_length_append in H.
    simpl in H. lia. }
  destruct target as [|c1 [|c2 [|c3 [|c4 t]]]]; try discriminate Hlen.
  simpl in H. discriminate H.
Qed.

Lemma output_file_convention_witness :
  startswith "FusA_VanillaESM.npy" "FusA_" = true /\
  endswith "FusA_VanillaESM.npy" ".npy" = true /\
  (forall other cfg',
     dict_getitem other MODELS = inr cfg' ->
     output_file cfg' = "FusA_VanillaESM.npy" -> other = "VanillaESM") /\
  exists a,
    files (snd (toy_process "d.csv" "VanillaESM" Toy.labelled_world)) =
      <["FusA_VanillaESM.npy" := NpyFile a]> (files Toy.labelled_world).
Proof.
  apply (output_file_convention Toy.hub_model Toy.hub_tokenizer Toy.labelled_world
           (snd (toy_process "d.csv" "VanillaESM" Toy.labelled_world))
           "d.csv" "VanillaESM" Toy.vanilla).
  - reflexivity.
  - vm_compute. reflexivity.
Defined.

(** On the small encoder the sequence [A] is tokenized to [0; 4; 2], and
    the first component of its embedding is (0 + 4 + 2) / 3, not the 4 of
    its one residue. *)
Example get_mean_rep_special_tokens :
  get_mean_rep (CStr "A") Toy.model Toy.tokenizer = inr [Fin (6 # 3); Fin (3 # 3)].
Proof. reflexivity. Qed.

End ExtractFacts.

(** ** The substrate-tolerance notebook *)

Module PredictFacts.

Import PyFacts Predict.

(** *** Reshaping *)

Lemma chunks_lookup {A} (k : nat) (j : nat) :
  forall (fuel : nat) (xs : list A),
    (0 < k)%nat -> (length xs <= fuel)%nat -> (j * k < length xs)%nat ->
    chunks fuel k xs !! j = Some (take k (drop (j * k) xs)).
Proof.
  induction j as [|j IH]; intros fuel xs Hk Hfuel Hj.
  - destruct fuel as [|fuel]; [lia|]. destruct xs as [|x xs]; [simpl in Hj; lia|].
    reflexivity.
  - destruct fuel as [|fuel]; [lia|]. destruct xs as [|x xs]; [simpl in Hj; lia|].
    cbn [chunks]. rewrite lookup_cons.
    rewrite IH.
    + rewrite drop_drop. reflexivity.
    + exact Hk.
    + rewrite length_drop. simpl in Hfuel |- *. lia.
    + rewrite length_drop. lia.
Qed.

Lemma chunks_length {A} (k : nat) (n : nat) :
  forall (fuel : nat) (xs : list A),
    (0 < k)%nat -> (length xs <= fuel)%nat -> length xs = (n * k)%nat ->
    length (chunks fuel k xs) = n.
Proof.
  induction n as [|n IH]; intros fuel xs Hk Hfuel Hlen.
  - destruct xs; [|discriminate]. destruct fuel; reflexivity.
  - destruct fuel as [|fuel]; [lia|]. destruct xs as [|x xs]; [simpl in Hlen; lia|].
    cbn [chunks length]. f_equal. apply IH.
    + exact Hk.
    + rewrite length_drop. simpl in Hfuel |- *. lia.
    + rewrite length_drop. lia.
Qed.

(** A slice of a list, read element by element. *)
Lemma take_drop_nth {A} (d : A) (k : nat) :
  forall (s : nat) (xs : list A),
    (s + k <= length xs)%nat ->
    take k (drop s xs) = map (fun i => nth (s + i) xs d) (seq 0 k).
Proof.
  induction k as [|k IH]; intros s xs Hlen.
  - reflexivity.
  - destruct (xs !! s) as [x|] eqn:Hx.
    2:{ apply lookup_ge_None in Hx. lia. }
    rewrite (drop_S _ _ _ Hx). cbn [take firstn seq map].
    f_equal.
    + rewrite Nat.add_0_r.
      rewrite (nth_lookup xs s d), Hx. reflexivity.
    + rewrite (IH (S s)) by lia.
      rewrite <- seq_shift, map_map.
      apply map_ext. intros i. f_equal. lia.
Qed.

(** C5. Fifty per-fold scores, five repeats of ten folds, repeat after
    repeat: the reshaping to rows of ten followed by the mean of each row
    gives exactly five values, and value [j] is the arithmetic mean of the
    ten inputs of indices [10 * j] to [10 * j + 9]. *)
Theorem repeat_means_groups (scores : list scalar) :
  length scores = 50%nat ->
  exists out,
    repeat_means scores = inr out /\
    length out = 5%nat /\
    forall j, (j < 5)%nat ->
      out !! j =
      Some (sdiv_count
              (ssum (map (fun fold_index => nth (10 * j + fold_index) scores NaN)
                         (seq 0 10)))
              10).
Proof.
  intros Hlen. unfold repeat_means, reshape_rows. rewrite Hlen.
  change ((50 mod 10 =? 0)%nat) with true. cbn [mbind result_bind mret result_ret].
  eexists. split; [reflexivity|]. split.
  - unfold mean_axis1. rewrite length_map.
    apply (chunks_length 10 5); lia.
  - intros j Hj. unfold mean_axis1.
    change (map mean (chunks 50 10 scores)) with (mean <$> chunks 50 10 scores).
    rewrite list_lookup_fmap, (chunks_lookup 10 j) by lia.
    cbn [fmap option_fmap option_map]. f_equal.
    rewrite (take_drop_nth NaN) by lia.
    unfold mean. rewrite length_map, length_seq.
    replace (j * 10)%nat with (10 * j)%nat by lia. reflexivity.
Qed.

(** The synthetic check: the scores 0, 1, ..., 49 have the means 4.5,
    14.5, 24.5, 34.5 and 44.5. *)
Example repeat_means_0_to_49 :
  repeat_means (map (fun i => Fin (inject_Z (Z.of_nat i))) (seq 0 50)) =
    inr [Fin (45 # 10); Fin (145 # 10); Fin (245 # 10); Fin (345 # 10); Fin (445 # 10)].
Proof. vm_compute. reflexivity. Qed.

(** A score count that is no multiple of ten is refused. *)
Example repeat_means_49 :
  repeat_means (map (fun i => Fin (inject_Z (Z.of_nat i))) (seq 0 49)) =
    inl (ValueError "cannot reshape array of size 49 into shape (10)").
Proof. vm_compute. reflexivity. Qed.

Lemma repeat_means_groups_witness :
  exists out,
    repeat_means (map (fun i => Fin (inject_Z (Z.of_nat i))) (seq 0 50)) = inr out /\
    length out = 5%nat /\
    forall j, (j < 5)%nat ->
      out !! j =
      Some (sdiv_count
              (ssum (map (fun fold_index =>
                            nth (10 * j + fold_index)
                                (map (fun i => Fin (inject_Z (Z.of_nat i))) (seq 0 50)) NaN)
                         (seq 0 10)))
              10).
Proof.
  apply (repeat_means_groups (map (fun i => Fin (inject_Z (Z.of_nat i))) (seq 0 50))).
  reflexivity.
Defined.

(** *** Seeds *)

Lemma dict_getitem_app_new {V} (k : string) (v : V) (d : list (string * V)) :
  dict_contains k d = false -> dict_getitem k (d ++ [(k, v)]) = inr v.
Proof.
  unfold dict_contains. induction d as [|[k' v'] d IH]; simpl.
  - intros _. rewrite String.eqb_refl. reflexivity.
  - destruct (String.eqb k k'); [discriminate|]. exact IH.
Qed.


(** An estimator built with a seed holds that seed. *)
Lemma construct_seeded_random_state (c : family) (kw : kwargs) (seed : Z) (e : estimator) :
  construct_seeded c kw seed = inr e -> get_random_state e = Some seed /\ cls e = c.
Proof.
  unfold construct_seeded.
  destruct (dict_contains "random_state" kw) eqn:Hkw; [discriminate|].
  intros [= <-]. unfold get_random_state, dict_get. simpl.
  rewrite (dict_getitem_app_new _ _ _ Hkw). split; reflexivity.
Qed.

Lemma evaluation_estimators_seeded (best_params : list (string * kwargs))
    (RF Ada SVM MLP : estimator) :
  evaluation_estimators best_params = inr (RF, Ada, SVM, MLP) ->
  Forall (fun e => get_random_state e = Some 42%Z) [RF; Ada; SVM; MLP] /\
  map cls [RF; Ada; SVM; MLP] = model_list.
Proof.
  unfold evaluation_estimators.
  destruct (dict_getitem "RF" best_params) as [?|kw1]; [discriminate|]. simpl.
  destruct (construct_seeded RandomForestClassifier kw1 random_seed) as [?|e1] eqn:H1;
    [discriminate|]. simpl.
  destruct (dict_getitem "AdaBoost" best_params) as [?|kw2]; [discriminate|]. simpl.
  destruct (construct_seeded AdaBoostClassifier kw2 random_seed) as [?|e2] eqn:H2;
    [discriminate|]. simpl.
  destruct (dict_getitem "SVC" best_params) as [?|kw3]; [discriminate|]. simpl.
  destruct (construct_seeded SVC kw3 random_seed) as [?|e3] eqn:H3;
    [discriminate|]. simpl.
  destruct (dict_getitem "MLP" best_params) as [?|kw4]; [discriminate|]. simpl.
  destruct (construct_seeded MLPClassifier kw4 random_seed) as [?|e4] eqn:H4;
    [discriminate|]. simpl.
  intros [= <- <- <- <-].
  apply construct_seeded_random_state in H1 as [S1 C1], H2 as [S2 C2],
        H3 as [S3 C3], H4 as [S4 C4].
  split.
  - repeat constructor; assumption.
  - simpl. rewrite C1, C2, C3, C4. reflexivity.
Qed.




Section Sklearn.

Variable rng : Type.
Variable RandomState : Z -> rng.
Variable KFold_split : nat -> nat -> rng -> result (list fold * rng).
Variable fit_and_score :
  family -> kwargs -> rng -> ndarray -> list cell -> fold -> result Q.

Abbreviation cross_val := (cross_val_score rng RandomState KFold_split fit_and_score).
Abbreviation evaluate := (cv_res rng RandomState KFold_split fit_and_score).

(** With a seeded splitter and a seeded estimator, the scores are those
    over the folds of the splitter's seed, fitted with the generator of
    the estimator's seed: the global generator plays no part. *)
Lemma cross_val_score_seeded (e : estimator) (X : ndarray) (y : list cell)
    (cv : RepeatedKFold) (ambient : rng) (seed seed' : Z) :
  get_random_state e = Some seed ->
  cv_random_state cv = Some seed' ->
  cross_val e X y cv ambient =
    scores_over rng fit_and_score
      (repeated_split rng KFold_split (n_repeats cv) (n_splits cv) (n_samples X)
                      (RandomState seed'))
      (RandomState seed) e X y.
Proof.
  intros He Hcv. unfold cross_val_score, scores_over, split, fit_and_score_estimator.
  rewrite He, Hcv. reflexivity.
Qed.



End Sklearn.


(** On the small collaborators the evaluation completes, with five means
    for each family. *)
Example cv_res_runs :
  match Toy.cv_res Toy.Xs Toy.ys Toy.best_params 0%Z with
  | inr res =>
      map (fun kv => (fst kv, length (snd kv))) res =
        [("RF", 5%nat); ("AdaBoost", 5%nat); ("SVC", 5%nat); ("MLP", 5%nat)]
  | inl _ => False
  end.
Proof. vm_compute. reflexivity. Qed.



End PredictFacts.

(** * Further properties *)

(** ** The embedding-extraction notebook, beyond the claims *)

Module ExtractMore.

Import PyFacts Extract ExtractFacts.

(** Only the token ids of the encoding are read: two tokenizers that give
    a sequence the same ids, whatever else they put in the encoding, give
    it the same embedding. *)
Theorem get_mean_rep_reads_input_ids_only (sequence : cell) (model : Model)
    (tokenizer tokenizer' : Tokenizer) (enc enc' : BatchEncoding) :
  tokenizer sequence = inr enc ->
  tokenizer' sequence = inr enc' ->
  input_ids enc = input_ids enc' ->
  get_mean_rep sequence model tokenizer = get_mean_rep sequence model tokenizer'.
Proof.
  intros Htok Htok' Hids. unfold get_mean_rep.
  rewrite Htok, Htok'. simpl. rewrite Hids. reflexivity.
Qed.

Section Hub.

Variable hub_model : string -> result Model.
Variable hub_tokenizer : string -> result Tokenizer.

Abbreviation process := (process_embeddings hub_model hub_tokenizer).

#[local] Opaque MODELS.

(** What a completed run went through. *)
Lemma process_embeddings_inr_inv (w w' : world) (data_file model_name : string) :
  process data_file model_name w = (inr tt, w') ->
  exists cfg model tokenizer name names body vs a,
    dict_getitem model_name MODELS = inr cfg /\
    hub_model (model_path cfg) = inr model /\
    hub_tokenizer (model_path cfg) = inr tokenizer /\
    files w !! data_file = Some (CsvFile (name :: names) body) /\
    list_comprehension (fun seq => get_mean_rep seq (eval model) tokenizer)
                       (map (fun r => nth 0 r CNaN) body) = inr vs /\
    np_array vs = inr a /\
    output_file cfg ∉ readonly w.
Proof.
  unfold process_embeddings.
  destruct (dict_contains model_name MODELS); simpl; [|discriminate].
  unfold mbind, M_bind, lift, print, read_csv, np_save. simpl.
  destruct (dict_getitem model_name MODELS) as [e|cfg] eqn:Hcfg; simpl; [discriminate|].
  destruct (hub_model (model_path cfg)) as [e|model] eqn:Hm; simpl; [discriminate|].
  destruct (hub_tokenizer (model_path cfg)) as [e|tokenizer] eqn:Ht; simpl; [discriminate|].
  destruct (files w !! data_file) as [[|[|name names] body|a0]|] eqn:Hfile; simpl;
    try discriminate.
  destruct (list_comprehension _ _) as [e|vs] eqn:Hvs; simpl; [discriminate|].
  destruct (np_array vs) as [e|a] eqn:Ha; simpl; [discriminate|].
  rewrite (MODELS_npy_name _ _ Hcfg).
  destruct (decide (output_file cfg ∈ readonly w)) as [Hin|Hout]; simpl; [discriminate|].
  intros _. exists cfg, model, tokenizer, name, names, body, vs, a. auto 10.
Qed.

(** In the model, where [np_save] fails before it touches its file, a call
    that raises leaves the files and the permissions as they were. *)
Lemma process_embeddings_raise_frame (w w' : world)
    (data_file model_name : string) (e : exn) :
  process data_file model_name w = (inl e, w') ->
  files w' = files w /\ readonly w' = readonly w.
Proof.
  unfold process_embeddings.
  destruct (dict_contains model_name MODELS); simpl.
  2:{ unfold raise. intros [= _ <-]. auto. }
  unfold mbind, M_bind, lift, print, read_csv, np_save. simpl.
  destruct (dict_getitem model_name MODELS) as [e0|cfg] eqn:Hcfg; simpl.
  { intros [= _ <-]. auto. }
  destruct (hub_model (model_path cfg)) as [e0|model]; simpl.
  { intros [= _ <-]. auto. }
  destruct (hub_tokenizer (model_path cfg)) as [e0|tokenizer]; simpl.
  { intros [= _ <-]. auto. }
  destruct (files w !! data_file) as [[|[|name names] body|a0]|]; simpl;
    try (intros [= _ <-]; auto).
  destruct (list_comprehension _ _) as [e0|vs]; simpl.
  { intros [= _ <-]. auto. }
  destruct (np_array vs) as [e0|a]; simpl.
  { intros [= _ <-]. auto. }
  destruct (decide (npy_name (output_file cfg) ∈ readonly w)); simpl.
  { intros [= _ <-]. auto. }
  discriminate.
Qed.

(** [np.save] is the one statement of [process_embeddings] that writes.
    The statements before it, from the membership test to [np.array],
    leave the files and the permissions as they are, whether they complete
    or raise; when one of them raises, the call raises that exception and
    ends there, with no file created or changed; when they complete, the
    call goes on with [np.save] on what they computed, and the two last
    lines are printed after it. *)
Theorem process_embeddings_writes_last (w : world) (data_file model_name : string) :
  (files (snd (before_save hub_model hub_tokenizer data_file model_name w)) = files w /\
   readonly (snd (before_save hub_model hub_tokenizer data_file model_name w)) = readonly w) /\
  (forall e w',
     before_save hub_model hub_tokenizer data_file model_name w = (inl e, w') ->
     process data_file model_name w = (inl e, w')) /\
  (forall cfg seq_embs w',
     before_save hub_model hub_tokenizer data_file model_name w = (inr (cfg, seq_embs), w') ->
     process data_file model_name w =
       (np_save (output_file cfg) seq_embs;;
        print ("Embeddings saved to: " +:+ output_file cfg);;
        print ("Shape of embeddings: " +:+ repr_tuple (shape seq_embs))) w').
Proof.
  unfold before_save, process_embeddings.
  destruct (dict_contains model_name MODELS); cbn [negb].
  2:{ unfold raise. split; [split; reflexivity|]. split.
      - intros e w' [= <- <-]. reflexivity.
      - intros cfg seq_embs w'. discriminate. }
  unfold mbind, M_bind, lift, print, read_csv, mret, M_ret.
  destruct (dict_getitem model_name MODELS) as [e0|cfg0]; cbn.
  { split; [split; reflexivity|]. split; [intros e w' [= <- <-]; reflexivity|discriminate]. }
  destruct (hub_model (model_path cfg0)) as [e0|model]; cbn.
  { split; [split; reflexivity|]. split; [intros e w' [= <- <-]; reflexivity|discriminate]. }
  destruct (hub_tokenizer (model_path cfg0)) as [e0|tokenizer]; cbn.
  { split; [split; reflexivity|]. split; [intros e w' [= <- <-]; reflexivity|discriminate]. }
  destruct (files w !! data_file) as [[|[|name names] body|a0]|]; cbn;
    try (split; [split; reflexivity|];
         split; [intros e w' [= <- <-]; reflexivity|discriminate]).
  destruct (list_comprehension _ _) as [e0|vs]; cbn.
  { split; [split; reflexivity|]. split; [intros e w' [= <- <-]; reflexivity|discriminate]. }
  destruct (np_array vs) as [e0|a]; cbn.
  { split; [split; reflexivity|]. split; [intros e w' [= <- <-]; reflexivity|discriminate]. }
  split; [split; reflexivity|]. split; [discriminate|].
  intros cfg seq_embs w' [= <- <- <-]. reflexivity.
Qed.

Lemma list_comprehension_first_failure {A B} (f : A -> result B)
    (xs : list A) (y : A) (zs : list A) (e : exn) :
  (forall x, x ∈ xs -> is_ok (f x) = true) ->
  f y = inl e ->
  list_comprehension f (xs ++ y :: zs) = inl e.
Proof.
  induction xs as [|x xs IH]; intros Hxs Hy.
  - simpl. rewrite Hy. reflexivity.
  - cbn [app list_comprehension].
    assert (Hx : is_ok (f x) = true) by (apply Hxs, elem_of_cons; left; reflexivity).
    destruct (f x) as [?|b]; [discriminate|]. cbn [mbind result_bind].
    rewrite IH; [reflexivity| |exact Hy].
    intros x' Hx'. apply Hxs, elem_of_cons. right. exact Hx'.
Qed.

(** The sequences are embedded in file order and the first one that fails
    ends the call: the exception raised is the one of that record,
    whatever the records after it hold, and by then the loading line and
    the number of sequences have been printed and no file has changed. *)
Theorem process_embeddings_first_failure (w : world) (data_file model_name : string)
    (cfg : config) (model : Model) (tokenizer : Tokenizer)
    (name : string) (names : list string)
    (before : list (list cell)) (row : list cell) (after : list (list cell)) (e : exn) :
  dict_getitem model_name MODELS = inr cfg ->
  hub_model (model_path cfg) = inr model ->
  hub_tokenizer (model_path cfg) = inr tokenizer ->
  files w !! data_file = Some (CsvFile (name :: names) (before ++ row :: after)) ->
  (forall r, r ∈ before ->
     is_ok (get_mean_rep (nth 0 r CNaN) (eval model) tokenizer) = true) ->
  get_mean_rep (nth 0 row CNaN) (eval model) tokenizer = inl e ->
  process data_file model_name w =
    (inl e,
     {| files := files w; readonly := readonly w;
        stdout := stdout w ++
          [ "Loading model: " +:+ model_name;
            "Number of sequences: " +:+ pretty (length (before ++ row :: after)) ] |}).
Proof.
  intros Hcfg Hm Ht Hfile Hbefore Hrow.
  assert (Hfail : list_comprehension
            (fun seq => get_mean_rep seq (eval model) tokenizer)
            (map (fun r => nth 0 r CNaN) (before ++ row :: after)) = inl e).
  { rewrite map_app. cbn [map].
    apply list_comprehension_first_failure; [|exact Hrow].
    intros x Hx. apply list_elem_of_In, in_map_iff in Hx as (r & <- & Hr).
    apply Hbefore, list_elem_of_In. exact Hr. }
  unfold process_embeddings.
  rewrite (dict_getitem_contains _ _ _ Hcfg). simpl.
  unfold mbind, M_bind, lift, print, read_csv. simpl.
  rewrite Hcfg, Hm, Ht. simpl. rewrite Hfile. simpl.
  rewrite Hfail. simpl. rewrite length_map, <- app_assoc. reflexivity.
Qed.

(** The order in which a call for a configured model can fail: the encoder
    is loaded first, then the tokenizer, and only then is the data file
    opened.  So a hub that cannot give the encoder, or the tokenizer, ends
    the call with its own exception whether or not the data file exists,
    and a data file that does not exist is reported, with
    [FileNotFoundError], only after both have been loaded.  Each time the
    loading line is all that was printed and the world is otherwise as it
    was. *)
Theorem process_embeddings_error_order (w : world) (data_file model_name : string)
    (cfg : config) :
  dict_getitem model_name MODELS = inr cfg ->
  (forall e,
     hub_model (model_path cfg) = inl e ->
     process data_file model_name w =
       (inl e,
        {| files := files w; readonly := readonly w;
           stdout := stdout w ++ ["Loading model: " +:+ model_name] |})) /\
  (forall model e,
     hub_model (model_path cfg) = inr model ->
     hub_tokenizer (model_path cfg) = inl e ->
     process data_file model_name w =
       (inl e,
        {| files := files w; readonly := readonly w;
           stdout := stdout w ++ ["Loading model: " +:+ model_name] |})) /\
  (forall model tokenizer,
     hub_model (model_path cfg) = inr model ->
     hub_tokenizer (model_path cfg) = inr tokenizer ->
     files w !! data_file = None ->
     process data_file model_name w =
       (inl (FileNotFoundError data_file),
        {| files := files w; readonly := readonly w;
           stdout := stdout w ++ ["Loading model: " +:+ model_name] |})).
Proof.
  intros Hcfg.
  assert (Hstart : process data_file model_name w =
            (config ← lift (dict_getitem model_name MODELS);
             print ("Loading model: " +:+ model_name);;
             model ← lift (hub_model (model_path config));
             tokenizer ← lift (hub_tokenizer (model_path config));
             data ← read_csv data_file;
             seq_ls ← lift (iloc_column 0 data);
             print ("Number of sequences: " +:+ pretty (length seq_ls));;
             seq_embs ← lift (list_comprehension
                                (fun seq => get_mean_rep seq (eval model) tokenizer) seq_ls);
             seq_embs ← lift (np_array seq_embs);
             np_save (output_file config) seq_embs;;
             print ("Embeddings saved to: " +:+ output_file config);;
             print ("Shape of embeddings: " +:+ repr_tuple (shape seq_embs))) w).
  { unfold process_embeddings. rewrite (dict_getitem_contains _ _ _ Hcfg). reflexivity. }
  rewrite Hstart. unfold mbind, M_bind, lift, print, read_csv. rewrite Hcfg.
  split; [|split].
  - intros e Hm. simpl. rewrite Hm. reflexivity.
  - intros model e Hm Ht. simpl. rewrite Hm. simpl. rewrite Ht. reflexivity.
  - intros model tokenizer Hm Ht Hfile. simpl. rewrite Hm. simpl. rewrite Ht. simpl.
    rewrite Hfile. reflexivity.
Qed.

(** A data file with its header and no record: the call completes without
    a single call of the tokenizer or the encoder, saves the empty array of
    shape [(0,)], not a matrix, and reports zero sequences. *)
Theorem process_embeddings_no_records (w : world) (data_file model_name : string)
    (cfg : config) (model : Model) (tokenizer : Tokenizer)
    (name : string) (names : list string) :
  dict_getitem model_name MODELS = inr cfg ->
  hub_model (model_path cfg) = inr model ->
  hub_tokenizer (model_path cfg) = inr tokenizer ->
  files w !! data_file = Some (CsvFile (name :: names) []) ->
  output_file cfg ∉ readonly w ->
  process data_file model_name w =
    (inr tt,
     {| files := <[output_file cfg := NpyFile (Arr1 [])]> (files w);
        readonly := readonly w;
        stdout := stdout w ++
          [ "Loading model: " +:+ model_name;
            "Number of sequences: 0";
            "Embeddings saved to: " +:+ output_file cfg;
            "Shape of embeddings: (0,)" ] |}).
Proof.
  intros Hcfg Hm Ht Hfile Hro.
  apply (process_embeddings_completes hub_model hub_tokenizer w data_file model_name
           cfg model tokenizer name names [] [] (Arr1 [])); auto.
Qed.

(** A run that completes prints four lines, the second with the number of
    records of the file and the last with the shape of the saved matrix:
    that number and the width of the embeddings. *)
Theorem process_embeddings_report (w : world) (data_file model_name : string)
    (cfg : config) (model : Model) (tokenizer : Tokenizer)
    (name : string) (names : list string) (body : list (list cell)) (d : nat) :
  dict_getitem model_name MODELS = inr cfg ->
  hub_model (model_path cfg) = inr model ->
  hub_tokenizer (model_path cfg) = inr tokenizer ->
  files w !! data_file = Some (CsvFile (name :: names) body) ->
  body <> [] ->
  output_file cfg ∉ readonly w ->
  (forall row, row ∈ body ->
     exists v, get_mean_rep (nth 0 row CNaN) (eval model) tokenizer = inr v /\
               length v = d) ->
  stdout (snd (process data_file model_name w)) =
    (stdout w ++
      [ "Loading model: " +:+ model_name;
        "Number of sequences: " +:+ pretty (length body);
        "Embeddings saved to: " +:+ output_file cfg;
        "Shape of embeddings: " +:+ repr_tuple [length body; d] ])%list.
Proof.
  intros Hcfg Hm Ht Hfile Hbody Hro Hrows.
  destruct (embeddings_of_rows _ _ _ _ Hrows) as (vs & Hvs & Hd).
  assert (Hlen : length body = length vs) by (eapply Forall2_length; exact Hvs).
  assert (Hne : vs <> []).
  { intros ->. destruct body; [congruence|discriminate]. }
  rewrite (process_embeddings_completes hub_model hub_tokenizer w data_file model_name
             cfg model tokenizer name names body vs (Arr2 d vs) Hcfg Hm Ht Hfile).
  - simpl. rewrite <- Hlen. reflexivity.
  - apply list_comprehension_inr, Forall2_map_left. exact Hvs.
  - apply np_array_uniform; assumption.
  - exact Hro.
Qed.

(** A rerun on the data it already embedded changes nothing more: the
    second run completes and the files are those the first run left. *)
Theorem process_embeddings_rerun (w w' : world) (data_file model_name : string)
    (cfg : config) :
  dict_getitem model_name MODELS = inr cfg ->
  data_file <> output_file cfg ->
  process data_file model_name w = (inr tt, w') ->
  exists w'', process data_file model_name w' = (inr tt, w'') /\ files w'' = files w'.
Proof.
  intros Hcfg Hne Hrun.
  destruct (process_embeddings_inr_inv _ _ _ _ Hrun)
    as (cfg0 & model & tokenizer & name & names & body & vs & a &
        Hcfg0 & Hm & Ht & Hfile & Hvs & Ha & Hro).
  rewrite Hcfg in Hcfg0. injection Hcfg0 as <-.
  rewrite (process_embeddings_completes hub_model hub_tokenizer w data_file model_name
             cfg model tokenizer name names body vs a Hcfg Hm Ht Hfile Hvs Ha Hro) in Hrun.
  injection Hrun as <-.
  eexists. split.
  - apply (process_embeddings_completes hub_model hub_tokenizer _ data_file model_name
             cfg model tokenizer name names body vs a); try assumption.
    simpl. rewrite lookup_insert_ne by (intros Heq; apply Hne; symmetry; exact Heq).
    exact Hfile.
  - simpl. apply insert_insert_eq.
Qed.

(** The mode in which the hub hands the encoder over is of no account:
    [model.eval()] comes before the first forward pass, so an encoder that
    arrives in training mode is run in inference mode all the same. *)
Theorem process_embeddings_inference_mode (w : world) (data_file model_name : string)
    (hub_model' : string -> result Model) :
  (forall path,
     match hub_model path, hub_model' path with
     | inr m, inr m' => forward m = forward m'
     | inl e, inl e' => e = e'
     | _, _ => False
     end) ->
  process_embeddings hub_model' hub_tokenizer data_file model_name w =
  process data_file model_name w.
Proof.
  intros Hhub. unfold process_embeddings.
  destruct (dict_contains model_name MODELS); simpl; [|reflexivity].
  unfold mbind, M_bind, lift, print, read_csv, np_save. simpl.
  destruct (dict_getitem model_name MODELS) as [e|cfg]; simpl; [reflexivity|].
  specialize (Hhub (model_path cfg)).
  destruct (hub_model (model_path cfg)) as [e|m], (hub_model' (model_path cfg)) as [e'|m'];
    simpl; try contradiction.
  - rewrite Hhub. reflexivity.
  - unfold eval. rewrite Hhub. reflexivity.
Qed.

(** A call changes no file but the output file of its model. *)
Lemma process_embeddings_frame (w : world) (data_file model_name p : string) :
  (forall cfg, dict_getitem model_name MODELS = inr cfg -> p <> output_file cfg) ->
  files (snd (process data_file model_name w)) !! p = files w !! p.
Proof.
  intros Hp.
  destruct (process data_file model_name w) as [[e|[]] w'] eqn:Hrun; simpl.
  - apply process_embeddings_raise_frame in Hrun as [-> _]. reflexivity.
  - destruct (process_embeddings_outcome _ _ _ _ _ _ _ Hrun)
      as [(e & [=] & _) | (_ & cfg & a & Hcfg & ->)].
    apply lookup_insert_ne. intros Heq. apply (Hp cfg Hcfg). symmetry. exact Heq.
Qed.

Lemma for_each_frame (names : list string) (data_file p : string) :
  forall w,
    (forall model_name cfg,
       model_name ∈ names -> dict_getitem model_name MODELS = inr cfg ->
       p <> output_file cfg) ->
    files (snd (for_each names (fun model_name => process data_file model_name) w)) !! p =
    files w !! p.
Proof.
  induction names as [|n names IH]; intros w Hp; [reflexivity|].
  cbn [for_each]. unfold mbind, M_bind.
  pose proof (process_embeddings_frame w data_file n p) as Hstep.
  destruct (process data_file n w) as [[e|[]] w1]; simpl in Hstep |- *.
  - apply Hstep. intros cfg Hcfg. apply (Hp n cfg); [|exact Hcfg].
    apply elem_of_cons. left. reflexivity.
  - rewrite IH.
    + apply Hstep. intros cfg Hcfg. apply (Hp n cfg); [|exact Hcfg].
      apply elem_of_cons. left. reflexivity.
    + intros m cfg Hm Hcfg. apply (Hp m cfg); [|exact Hcfg].
      apply elem_of_cons. right. exact Hm.
Qed.

#[local] Transparent MODELS.

(** Among the files of [world], which are the files that pandas and NumPy
    read and write and do not include the download cache that the hub
    loaders keep, the driver cell creates or changes none but the three
    output files of the configuration, whether it completes or stops on an
    exception; in particular not the data set it reads, and not the file
    [../data/data_for_substrate_tolerance_prediction/FusA_LassoESM.npy]
    that the prediction notebook loads. *)
Theorem main_changes_only_outputs (w : world) (p : string) :
  p ∉ ["FusA_LassoESM.npy"; "FusA_VanillaESM.npy"; "FusA_PeptideESM_650M.npy"] ->
  files (snd (main hub_model hub_tokenizer w)) !! p = files w !! p.
Proof.
  intros Hp. unfold main. apply for_each_frame.
  intros model_name cfg _ Hcfg Heq. apply Hp.
  apply MODELS_getitem in Hcfg. unfold MODELS in Hcfg. subst p.
  repeat (apply elem_of_cons in Hcfg as [[= -> ->]|Hcfg];
          [simpl; repeat (first [apply list_elem_of_here | apply list_elem_of_further])|]).
  inversion Hcfg.
Qed.

(** The driver cell is all-or-nothing for each model, not for the run:
    when the first model completes and the second raises, the cell raises
    that exception with the file of the first model in place, and the
    third model is not tried. *)
Theorem main_stops_at_first_failure (w w1 w2 : world) (e : exn) :
  process data_file "Lasso_ESM" w = (inr tt, w1) ->
  process data_file "VanillaESM" w1 = (inl e, w2) ->
  main hub_model hub_tokenizer w = (inl e, w2) /\
  (exists a, files w2 !! "FusA_LassoESM.npy" = Some (NpyFile a)) /\
  files w2 !! "FusA_PeptideESM_650M.npy" = files w !! "FusA_PeptideESM_650M.npy".
Proof.
  intros H1 H2. split; [|split].
  - unfold main. cbn [dict_keys MODELS map fst for_each].
    unfold mbind, M_bind. rewrite H1, H2. reflexivity.
  - apply process_embeddings_raise_frame in H2 as [-> _].
    destruct (process_embeddings_outcome _ _ _ _ _ _ _ H1)
      as [(e0 & [=] & _) | (_ & cfg & a & Hcfg & ->)].
    injection Hcfg as <-. exists a. apply lookup_insert_eq.
  - apply process_embeddings_raise_frame in H2 as [-> _].
    destruct (process_embeddings_outcome _ _ _ _ _ _ _ H1)
      as [(e0 & [=] & _) | (_ & cfg & a & Hcfg & ->)].
    injection Hcfg as <-. apply lookup_insert_ne. discriminate.
Qed.

(** With every encoder and tokenizer loading and every sequence of the
    data set embedding, the driver cell completes and leaves one matrix
    per configured model, each with one row per record of the data set. *)
Theorem main_completes (w : world) (name : string) (names : list string)
    (body : list (list cell)) (d : nat) :
  files w !! data_file = Some (CsvFile (name :: names) body) ->
  body <> [] ->
  (forall model_name cfg,
     (model_name, cfg) ∈ MODELS ->
     (output_file cfg ∉ readonly w) /\
     exists model tokenizer,
       hub_model (model_path cfg) = inr model /\
       hub_tokenizer (model_path cfg) = inr tokenizer /\
       forall row, row ∈ body ->
         exists v, get_mean_rep (nth 0 row CNaN) (eval model) tokenizer = inr v /\
                   length v = d) ->
  exists w',
    main hub_model hub_tokenizer w = (inr tt, w') /\
    forall model_name cfg,
      (model_name, cfg) ∈ MODELS ->
      exists data,
        files w' !! output_file cfg = Some (NpyFile (Arr2 d data)) /\
        length data = length body.
Proof.
  intros Hfile Hbody Hall.
  assert (Hstep : forall w0 model_name cfg,
            (model_name, cfg) ∈ MODELS ->
            dict_getitem model_name MODELS = inr cfg ->
            files w0 !! data_file = Some (CsvFile (name :: names) body) ->
            readonly w0 = readonly w ->
            exists vs,
              length vs = length body /\
              process data_file model_name w0 =
                (inr tt,
                 {| files := <[output_file cfg := NpyFile (Arr2 d vs)]> (files w0);
                    readonly := readonly w0;
                    stdout := stdout w0 ++
                      [ "Loading model: " +:+ model_name;
                        "Number of sequences: " +:+ pretty (length body);
                        "Embeddings saved to: " +:+ output_file cfg;
                        "Shape of embeddings: " +:+ repr_tuple (shape (Arr2 d vs)) ] |})).
  { intros w0 model_name cfg Hin Hcfg Hfile0 Hro0.
    destruct (Hall model_name cfg Hin) as (Hro & model & tokenizer & Hm & Ht & Hrows).
    destruct (embeddings_of_rows _ _ _ _ Hrows) as (vs & Hvs & Hd).
    assert (Hlen : length body = length vs) by (eapply Forall2_length; exact Hvs).
    assert (Hne : vs <> []).
    { intros ->. destruct body; [congruence|discriminate]. }
    exists vs. split; [symmetry; exact Hlen|].
    apply (process_embeddings_completes hub_model hub_tokenizer w0 data_file model_name
             cfg model tokenizer name names body vs (Arr2 d vs)); try assumption.
    - apply list_comprehension_inr, Forall2_map_left. exact Hvs.
    - apply np_array_uniform; assumption.
    - rewrite Hro0. exact Hro. }
  unfold main. cbn [dict_keys MODELS map fst for_each].
  unfold mbind, M_bind.
  destruct (Hstep w "Lasso_ESM" _ (list_elem_of_here _ _) eq_refl Hfile eq_refl)
    as (vs1 & Hlen1 & ->).
  match goal with |- context [process _ "VanillaESM" ?w0] => set (w1 := w0) end.
  destruct (Hstep w1 "VanillaESM" _ (list_elem_of_further _ _ _ (list_elem_of_here _ _))
              eq_refl) as (vs2 & Hlen2 & ->).
  { subst w1. simpl. rewrite lookup_insert_ne by discriminate. exact Hfile. }
  { reflexivity. }
  match goal with |- context [process _ "PeptideESM" ?w0] => set (w2 := w0) end.
  destruct (Hstep w2 "PeptideESM" _
              (list_elem_of_further _ _ _ (list_elem_of_further _ _ _ (list_elem_of_here _ _)))
              eq_refl) as (vs3 & Hlen3 & ->).
  { subst w2 w1. simpl. rewrite !lookup_insert_ne by discriminate. exact Hfile. }
  { reflexivity. }
  eexists. split; [reflexivity|].
  intros model_name cfg Hin. unfold MODELS in Hin. subst w2 w1. simpl.
  apply elem_of_cons in Hin as [[= -> ->]|Hin].
  { exists vs1. split; [|exact Hlen1].
    rewrite !lookup_insert_ne by discriminate. apply lookup_insert_eq. }
  apply elem_of_cons in Hin as [[= -> ->]|Hin].
  { exists vs2. split; [|exact Hlen2].
    rewrite lookup_insert_ne by discriminate. apply lookup_insert_eq. }
  apply elem_of_cons in Hin as [[= -> ->]|Hin]; [|inversion Hin].
  exists vs3. split; [|exact Hlen3]. apply lookup_insert_eq.
Qed.

#[local] Opaque MODELS.

(** The matrix that a run saves and the labels that the prediction
    notebook reads from the same data set line up: once the matrix is put
    where that notebook loads it, its loading cell returns as many labels
    as the matrix has rows, one per record. *)
Theorem saved_rows_match_labels (w w' w2 : world) (data_file model_name : string)
    (cfg : config) (c1 c2 : string) (cs : list string) (body : list (list cell)) :
  dict_getitem model_name MODELS = inr cfg ->
  files w !! data_file = Some (CsvFile (c1 :: c2 :: cs) body) ->
  process data_file model_name w = (inr tt, w') ->
  files w2 !! Predict.dataset_csv = Some (CsvFile (c1 :: c2 :: cs) body) ->
  files w2 !! Predict.embeddings_npy = files w' !! output_file cfg ->
  exists Xs ys,
    Predict.load_data w2 = (inr (Xs, ys), w2) /\
    ys = map (fun r => nth 1 r CNaN) body /\
    Predict.n_samples Xs = length ys.
Proof.
  intros Hcfg Hfile Hrun Hcsv Hnpy.
  destruct (process_embeddings_inr_inv _ _ _ _ Hrun)
    as (cfg0 & model & tokenizer & name & names & body0 & vs & a &
        Hcfg0 & Hm & Ht & Hfile0 & Hvs & Ha & Hro).
  rewrite Hcfg in Hcfg0. injection Hcfg0 as <-.
  rewrite Hfile in Hfile0. injection Hfile0 as <- <- <-.
  rewrite (process_embeddings_completes hub_model hub_tokenizer w data_file model_name
             cfg model tokenizer c1 (c2 :: cs) body vs a Hcfg Hm Ht Hfile Hvs Ha Hro) in Hrun.
  injection Hrun as <-. simpl in Hnpy. rewrite lookup_insert_eq in Hnpy.
  exists a, (map (fun r => nth 1 r CNaN) body). split; [|split].
  - unfold Predict.load_data, mbind, M_bind, lift, read_csv, np_load.
    rewrite Hcsv. simpl. rewrite Hnpy. reflexivity.
  - reflexivity.
  - rewrite length_map.
    apply list_comprehension_inr, Forall2_length in Hvs. rewrite length_map in Hvs.
    rewrite Hvs. unfold np_array in Ha.
    destruct vs as [|v rest]; [injection Ha as <-; reflexivity|].
    destruct (forallb _ rest); [|discriminate]. injection Ha as <-. reflexivity.
Qed.

End Hub.

Lemma get_mean_rep_reads_input_ids_only_witness :
  get_mean_rep (CStr "AC") Toy.model Toy.tokenizer =
  get_mean_rep (CStr "AC") Toy.model
    (fun _ => inr {| input_ids := [[0; 4; 6; 2]%Z]; attention_mask := [[1; 0; 0; 1]%Z] |}).
Proof.
  apply (get_mean_rep_reads_input_ids_only (CStr "AC") Toy.model Toy.tokenizer
           (fun _ => inr {| input_ids := [[0; 4; 6; 2]%Z];
                            attention_mask := [[1; 0; 0; 1]%Z] |})
           {| input_ids := [[0; 4; 6; 2]%Z]; attention_mask := [[1; 1; 1; 1]%Z] |}
           {| input_ids := [[0; 4; 6; 2]%Z]; attention_mask := [[1; 0; 0; 1]%Z] |});
    reflexivity.
Defined.

Lemma process_embeddings_writes_last_witness :
  toy_process "d.csv" "VanillaESM" Toy.too_long_world =
    (inl (ExternalError "sequence longer than the context of the model"),
     {| files := files Toy.too_long_world; readonly := readonly Toy.too_long_world;
        stdout := ["Loading model: VanillaESM"; "Number of sequences: 3"] |}).
Proof.
  apply (proj1 (proj2 (process_embeddings_writes_last Toy.hub_model Toy.hub_tokenizer
                         Toy.too_long_world "d.csv" "VanillaESM"))).
  vm_compute. reflexivity.
Defined.

Lemma process_embeddings_first_failure_witness :
  toy_process "d.csv" "VanillaESM" Toy.too_long_world =
    (inl (ExternalError "sequence longer than the context of the model"),
     {| files := files Toy.too_long_world; readonly := readonly Toy.too_long_world;
        stdout := ["Loading model: VanillaESM"; "Number of sequences: 3"] |}).
Proof.
  apply (process_embeddings_first_failure Toy.hub_model Toy.hub_tokenizer
           Toy.too_long_world "d.csv" "VanillaESM" Toy.vanilla Toy.model Toy.tokenizer
           "Sequence" ["Label"]
           [[CStr "AC"; CInt 1]] [CStr "ACDEFGHIK"; CInt 0] [[CStr "A"; CInt 0]]
           (ExternalError "sequence longer than the context of the model")).
  - reflexivity.
  - reflexivity.
  - reflexivity.
  - vm_compute. reflexivity.
  - intros r Hr. apply elem_of_cons in Hr as [->|Hr]; [reflexivity|inversion Hr].
  - reflexivity.
Defined.

Lemma process_embeddings_error_order_witness :
  process_embeddings Toy.offline_hub Toy.hub_tokenizer "missing.csv" "VanillaESM"
                     Toy.labelled_world =
    (inl (ExternalError "the hub cannot be reached"),
     {| files := files Toy.labelled_world; readonly := readonly Toy.labelled_world;
        stdout := ["Loading model: VanillaESM"] |}) /\
  toy_process "missing.csv" "VanillaESM" Toy.labelled_world =
    (inl (FileNotFoundError "missing.csv"),
     {| files := files Toy.labelled_world; readonly := readonly Toy.labelled_world;
        stdout := ["Loading model: VanillaESM"] |}).
Proof.
  split.
  - apply (proj1 (process_embeddings_error_order Toy.offline_hub Toy.hub_tokenizer
                    Toy.labelled_world "missing.csv" "VanillaESM" Toy.vanilla eq_refl)
             (ExternalError "the hub cannot be reached")).
    reflexivity.
  - apply (proj2 (proj2 (process_embeddings_error_order Toy.hub_model Toy.hub_tokenizer
                    Toy.labelled_world "missing.csv" "VanillaESM" Toy.vanilla eq_refl))
             Toy.model Toy.tokenizer).
    + reflexivity.
    + reflexivity.
    + vm_compute. reflexivity.
Defined.

Lemma process_embeddings_no_records_witness :
  toy_process "d.csv" "VanillaESM" Toy.header_only_world =
    (inr tt,
     {| files := <["FusA_VanillaESM.npy" := NpyFile (Arr1 [])]> (files Toy.header_only_world);
        readonly := readonly Toy.header_only_world;
        stdout := [ "Loading model: VanillaESM";
                    "Number of sequences: 0";
                    "Embeddings saved to: FusA_VanillaESM.npy";
                    "Shape of embeddings: (0,)" ] |}).
Proof.
  apply (process_embeddings_no_records Toy.hub_model Toy.hub_tokenizer
           Toy.header_only_world "d.csv" "VanillaESM" Toy.vanilla Toy.model Toy.tokenizer
           "Sequence" ["Label"]).
  - reflexivity.
  - reflexivity.
  - reflexivity.
  - vm_compute. reflexivity.
  - apply not_elem_of_empty.
Defined.

Lemma process_embeddings_report_witness :
  stdout (snd (toy_process "d.csv" "VanillaESM" Toy.labelled_world)) =
    [ "Loading model: VanillaESM";
      "Number of sequences: 2";
      "Embeddings saved to: FusA_VanillaESM.npy";
      "Shape of embeddings: (2, 2)" ].
Proof.
  apply (process_embeddings_report Toy.hub_model Toy.hub_tokenizer Toy.labelled_world
           "d.csv" "VanillaESM" Toy.vanilla Toy.model Toy.tokenizer
           "Sequence" ["Label"] [[CStr "AC"; CInt 1]; [CStr "A"; CInt 0]] 2).
  - reflexivity.
  - reflexivity.
  - reflexivity.
  - vm_compute. reflexivity.
  - discriminate.
  - apply not_elem_of_empty.
  - apply toy_rows_embed. left. reflexivity.
Defined.

Lemma process_embeddings_rerun_witness :
  exists w'',
    toy_process "d.csv" "VanillaESM"
                (snd (toy_process "d.csv" "VanillaESM" Toy.labelled_world)) = (inr tt, w'') /\
    files w'' = files (snd (toy_process "d.csv" "VanillaESM" Toy.labelled_world)).
Proof.
  apply (process_embeddings_rerun Toy.hub_model Toy.hub_tokenizer Toy.labelled_world
           (snd (toy_process "d.csv" "VanillaESM" Toy.labelled_world))
           "d.csv" "VanillaESM" Toy.vanilla).
  - reflexivity.
  - discriminate.
  - vm_compute. reflexivity.
Defined.

Lemma process_embeddings_inference_mode_witness :
  process_embeddings Toy.training_hub Toy.hub_tokenizer "d.csv" "VanillaESM"
                     Toy.labelled_world =
  toy_process "d.csv" "VanillaESM" Toy.labelled_world.
Proof.
  apply (process_embeddings_inference_mode Toy.hub_model Toy.hub_tokenizer
           Toy.labelled_world "d.csv" "VanillaESM" Toy.training_hub).
  intros path. reflexivity.
Defined.

Lemma main_changes_only_outputs_witness :
  files (snd (main Toy.hub_model Toy.hub_tokenizer Toy.repository_world))
    !! Predict.embeddings_npy =
  files Toy.repository_world !! Predict.embeddings_npy.
Proof.
  apply (main_changes_only_outputs Toy.hub_model Toy.hub_tokenizer
           Toy.repository_world Predict.embeddings_npy).
  intros H.
  apply elem_of_cons in H as [H|H]; [discriminate H|].
  apply elem_of_cons in H as [H|H]; [discriminate H|].
  apply elem_of_cons in H as [H|H]; [discriminate H|].
  inversion H.
Defined.

Lemma main_stops_at_first_failure_witness :
  main Toy.hub_without_vanilla Toy.hub_tokenizer Toy.repository_world =
    (inl (ExternalError "no such model on the hub"),
     snd (process_embeddings Toy.hub_without_vanilla Toy.hub_tokenizer data_file "VanillaESM"
            (snd (process_embeddings Toy.hub_without_vanilla Toy.hub_tokenizer data_file
                    "Lasso_ESM" Toy.repository_world)))) /\
  (exists a,
     files (snd (process_embeddings Toy.hub_without_vanilla Toy.hub_tokenizer data_file
                   "VanillaESM"
                   (snd (process_embeddings Toy.hub_without_vanilla Toy.hub_tokenizer
                           data_file "Lasso_ESM" Toy.repository_world))))
       !! "FusA_LassoESM.npy" = Some (NpyFile a)) /\
  files (snd (process_embeddings Toy.hub_without_vanilla Toy.hub_tokenizer data_file
                "VanillaESM"
                (snd (process_embeddings Toy.hub_without_vanilla Toy.hub_tokenizer
                        data_file "Lasso_ESM" Toy.repository_world))))
    !! "FusA_PeptideESM_650M.npy" =
  files Toy.repository_world !! "FusA_PeptideESM_650M.npy".
Proof.
  apply (main_stops_at_first_failure Toy.hub_without_vanilla Toy.hub_tokenizer
           Toy.repository_world
           (snd (process_embeddings Toy.hub_without_vanilla Toy.hub_tokenizer data_file
                   "Lasso_ESM" Toy.repository_world))).
  - vm_compute. reflexivity.
  - vm_compute. reflexivity.
Defined.

Lemma main_completes_witness :
  exists w',
    main Toy.hub_model Toy.hub_tokenizer Toy.repository_world = (inr tt, w') /\
    forall model_name cfg,
      (model_name, cfg) ∈ MODELS ->
      exists data,
        files w' !! output_file cfg = Some (NpyFile (Arr2 2 data)) /\
        length data = 2%nat.
Proof.
  apply (main_completes Toy.hub_model Toy.hub_tokenizer Toy.repository_world
           "Sequence" ["Label"] [[CStr "AC"; CInt 1]; [CStr "A"; CInt 0]] 2).
  - vm_compute. reflexivity.
  - discriminate.
  - intros model_name cfg _. split; [apply not_elem_of_empty|].
    exists Toy.model, Toy.tokenizer. split; [reflexivity|]. split; [reflexivity|].
    apply toy_rows_embed. left. reflexivity.
Defined.

Lemma saved_rows_match_labels_witness :
  exists Xs ys,
    Predict.load_data
      (Toy.world_of {[ Predict.dataset_csv := Toy.labelled;
                       Predict.embeddings_npy :=
                         NpyFile (Arr2 2 [[Fin (12 # 4); Fin (4 # 4)];
                                          [Fin (6 # 3); Fin (3 # 3)]]) ]}) =
      (inr (Xs, ys),
       Toy.world_of {[ Predict.dataset_csv := Toy.labelled;
                       Predict.embeddings_npy :=
                         NpyFile (Arr2 2 [[Fin (12 # 4); Fin (4 # 4)];
                                          [Fin (6 # 3); Fin (3 # 3)]]) ]}) /\
    ys = map (fun r => nth 1 r CNaN) [[CStr "AC"; CInt 1]; [CStr "A"; CInt 0]] /\
    Predict.n_samples Xs = length ys.
Proof.
  apply (saved_rows_match_labels Toy.hub_model Toy.hub_tokenizer Toy.labelled_world
           (snd (toy_process "d.csv" "VanillaESM" Toy.labelled_world))
           (Toy.world_of {[ Predict.dataset_csv := Toy.labelled;
                            Predict.embeddings_npy :=
                              NpyFile (Arr2 2 [[Fin (12 # 4); Fin (4 # 4)];
                                               [Fin (6 # 3); Fin (3 # 3)]]) ]})
           "d.csv" "VanillaESM" Toy.vanilla "Sequence" "Label" []
           [[CStr "AC"; CInt 1]; [CStr "A"; CInt 0]]).
  - reflexivity.
  - vm_compute. reflexivity.
  - vm_compute. reflexivity.
  - vm_compute. reflexivity.
  - vm_compute. reflexivity.
Defined.

End ExtractMore.

(** ** The substrate-tolerance notebook, beyond the claims *)

Module PredictMore.

Import PyFacts Predict PredictFacts.

(** *** Reshaping, for any number of scores *)

Lemma chunks_concat {A} (k : nat) (groups : list (list A)) :
  forall fuel,
    (0 < k)%nat ->
    Forall (fun grp => length grp = k) groups ->
    (length (concat groups) <= fuel)%nat ->
    chunks fuel k (concat groups) = groups.
Proof.
  induction groups as [|grp groups IH]; intros fuel Hk Hall Hfuel.
  - destruct fuel; reflexivity.
  - apply Forall_cons in Hall as [Hgrp Hall].
    cbn [concat] in *. rewrite length_app in Hfuel.
    destruct fuel as [|fuel]; [lia|].
    destruct grp as [|x grp]; [simpl in Hgrp; lia|].
    assert (Htake : take k (app (x :: grp) (concat groups)) = x :: grp).
    { rewrite <- Hgrp. apply take_app_length. }
    assert (Hdrop : drop k (app (x :: grp) (concat groups)) = concat groups).
    { rewrite <- Hgrp. apply drop_app_length. }
    cbn [app] in Htake, Hdrop |- *. cbn [chunks]. rewrite Htake, Hdrop. f_equal.
    apply IH; [exact Hk | exact Hall | simpl in Hfuel, Hgrp; lia].
Qed.

Lemma concat_uniform_length {A} (k : nat) (groups : list (list A)) :
  Forall (fun grp => length grp = k) groups ->
  length (concat groups) = (length groups * k)%nat.
Proof.
  induction 1 as [|grp groups Hgrp _ IH]; [reflexivity|].
  cbn [concat length]. rewrite length_app, IH, Hgrp. simpl. reflexivity.
Qed.

(** Scores that come in groups of ten are averaged group by group. *)
Lemma repeat_means_concat (groups : list (list scalar)) :
  Forall (fun grp => length grp = 10%nat) groups ->
  repeat_means (concat groups) = inr (map mean groups).
Proof.
  intros Hall. unfold repeat_means, reshape_rows.
  rewrite (concat_uniform_length 10 groups Hall).
  rewrite Nat.Div0.mod_mul. cbn [Nat.eqb mbind result_bind mret result_ret].
  rewrite chunks_concat; [reflexivity | lia | exact Hall |].
  rewrite (concat_uniform_length 10 groups Hall). lia.
Qed.

(** The reshaping and averaging step for any number of scores: [10 * n]
    scores give [n] means, none for no score at all, each the mean of its
    ten scores in order; any other number of scores is refused with the
    [ValueError] of [reshape]. *)
Theorem repeat_means_any_count (scores : list scalar) :
  (forall n, length scores = (10 * n)%nat ->
     exists out,
       repeat_means scores = inr out /\
       length out = n /\
       forall j, (j < n)%nat ->
         out !! j = Some (mean (take 10 (drop (10 * j) scores)))) /\
  ((length scores mod 10 <> 0)%nat ->
     repeat_means scores =
       inl (ValueError ("cannot reshape array of size " +:+ pretty (length scores)
                        +:+ " into shape (10)"))).
Proof.
  split.
  - intros n Hlen. unfold repeat_means, reshape_rows.
    replace ((length scores mod 10 =? 0)%nat) with true.
    2:{ symmetry. apply Nat.eqb_eq. rewrite Hlen, Nat.mul_comm. apply Nat.Div0.mod_mul. }
    cbn [mbind result_bind mret result_ret].
    eexists. split; [reflexivity|]. split.
    + unfold mean_axis1. rewrite length_map. apply (chunks_length 10 n); lia.
    + intros j Hj. unfold mean_axis1.
      change (map mean (chunks (length scores) 10 scores))
        with (mean <$> chunks (length scores) 10 scores).
      rewrite list_lookup_fmap, (chunks_lookup 10 j) by lia.
      replace (j * 10)%nat with (10 * j)%nat by lia. reflexivity.
  - intros Hmod. unfold repeat_means, reshape_rows.
    apply Nat.eqb_neq in Hmod. rewrite Hmod. reflexivity.
Qed.

(** *** Loading *)

(** The loading cell only reads: whatever it returns, the world is as it
    was.  And it returns a matrix and labels exactly when the data set
    parses with at least two columns and the embeddings file holds an
    array: the labels are then the second cells of the records, in file
    order, and the matrix is that array, of whatever size. *)
Theorem load_data_reads_only (w : world) :
  snd (load_data w) = w /\
  forall Xs ys,
    fst (load_data w) = inr (Xs, ys) <->
    exists c1 c2 cs body,
      files w !! dataset_csv = Some (CsvFile (c1 :: c2 :: cs) body) /\
      ys = map (fun r => nth 1 r CNaN) body /\
      files w !! embeddings_npy = Some (NpyFile Xs).
Proof.
  unfold load_data, mbind, M_bind, lift, read_csv, np_load, iloc_column.
  destruct (files w !! dataset_csv) as [[|[|c1 [|c2 cs]] body|a0]|] eqn:Hcsv;
    cbn -[dataset_csv embeddings_npy];
    try (split; [reflexivity|];
         intros Xs ys; split; [discriminate|];
         intros (c1' & c2' & cs' & body' & [=] & _); fail).
  destruct (files w !! embeddings_npy) as [[| |a]|] eqn:Hnpy;
    cbn -[dataset_csv embeddings_npy];
    (split; [reflexivity|]); intros Xs ys; split;
    try discriminate;
    try (intros (c1' & c2' & cs' & body' & _ & _ & [=]); fail).
  - intros [= <- <-]. exists c1, c2, cs, body. auto.
  - intros (c1' & c2' & cs' & body' & [= <- <- <- <-] & -> & [= <-]). reflexivity.
Qed.

(** *** Stripping the step name *)

Lemma prefix_append (old s : string) : String.prefix old (old +:+ s) = true.
Proof.
  induction old as [|c old IH]; simpl.
  - destruct s; reflexivity.
  - destruct (Ascii.ascii_dec c c) as [_|Hne]; [exact IH|congruence].
Qed.

Lemma replace_go_skip (old new p s : string) :
  replace_go old new (String.length p) (p +:+ s) = replace_go old new 0 s.
Proof.
  induction p as [|c p IH]; simpl.
  - destruct s; reflexivity.
  - exact IH.
Qed.

(** An occurrence at the front is replaced and the scan goes on behind it. *)
Lemma str_replace_at_front (c : Ascii.ascii) (old new s : string) :
  str_replace (String c old +:+ s) (String c old) new =
  new +:+ str_replace s (String c old) new.
Proof.
  unfold str_replace.
  change (String c old +:+ s) with (String c (old +:+ s)).
  cbn [replace_go].
  change (String c (old +:+ s)) with (String c old +:+ s).
  rewrite prefix_append.
  replace (String.length (String c old) - 1)%nat with (String.length old)
    by (cbn [String.length]; lia).
  rewrite replace_go_skip. reflexivity.
Qed.

(** A string without an occurrence is left as it is. *)
Lemma str_replace_absent (old new s : string) :
  str_contains old s = false -> str_replace s old new = s.
Proof.
  unfold str_replace. induction s as [|c s IH]; intros H.
  - reflexivity.
  - cbn [str_contains] in H. apply orb_false_iff in H as [Hpre Hrest].
    cbn [replace_go]. rewrite Hpre, (IH Hrest). reflexivity.
Qed.

Lemma dict_set_new {V} (k : string) (v : V) (d : list (string * V)) :
  k ∉ map fst d -> dict_set k v d = (d ++ [(k, v)])%list.
Proof.
  induction d as [|[k' v'] d IH]; intros Hk; simpl.
  - reflexivity.
  - simpl in Hk. apply not_elem_of_cons in Hk as [Hne Hk].
    apply String.eqb_neq in Hne. rewrite Hne, (IH Hk). reflexivity.
Qed.

Lemma strip_step_from (kw acc : kwargs) :
  NoDup (map fst (acc ++ kw)) ->
  Forall (fun kv => str_contains "classifier__" (fst kv) = false) kw ->
  foldl (fun d kv => dict_set (str_replace (fst kv) "classifier__" "") (snd kv) d)
        acc (with_step kw) = (acc ++ kw)%list.
Proof.
  revert acc. induction kw as [|[k v] kw IH]; intros acc Hnd Hall.
  - simpl. rewrite app_nil_r. reflexivity.
  - apply Forall_cons in Hall as [Hk Hall]. cbn [fst] in Hk.
    cbn [with_step map foldl fst snd].
    change ("classifier__" +:+ k) with (String "c" "lassifier__" +:+ k).
    rewrite str_replace_at_front.
    change (String "c" "lassifier__") with "classifier__".
    rewrite (str_replace_absent _ _ _ Hk). cbn [String.append].
    rewrite dict_set_new.
    + change (foldl ?f ?a (map ?g kw)) with (foldl f a (with_step kw)).
      rewrite IH.
      * rewrite <- app_assoc. reflexivity.
      * rewrite <- app_assoc. exact Hnd.
      * exact Hall.
    + rewrite map_app in Hnd. apply NoDup_app in Hnd as (_ & Hdisj & _).
      intros Hin. apply (Hdisj k Hin). simpl. apply elem_of_cons. left. reflexivity.
Qed.

(** The dict comprehension of the search loop undoes the naming of the
    grids: parameters written behind [classifier__] come back under their
    own names, with their values and in their order, provided that the
    names are distinct and none of them contains [classifier__] itself. *)
Theorem strip_step_with_step (kw : kwargs) :
  NoDup (map fst kw) ->
  Forall (fun kv => str_contains "classifier__" (fst kv) = false) kw ->
  strip_step (with_step kw) = kw.
Proof.
  intros Hnd Hall. unfold strip_step.
  rewrite (strip_step_from kw []); [reflexivity | exact Hnd | exact Hall].
Qed.

(** [replace] takes out every occurrence, not only the one in front: a
    name that contains [classifier__] does not come back. *)
Example strip_step_inner_occurrence :
  strip_step (with_step [("a_classifier__b", VInt 1)]) = [("a_b", VInt 1)].
Proof. reflexivity. Qed.

Lemma strip_step_with_step_witness :
  strip_step (with_step [("max_depth", VInt 10); ("max_features", VStr "sqrt");
                         ("n_estimators", VInt 50)]) =
    [("max_depth", VInt 10); ("max_features", VStr "sqrt"); ("n_estimators", VInt 50)].
Proof.
  apply (strip_step_with_step
           [("max_depth", VInt 10); ("max_features", VStr "sqrt"); ("n_estimators", VInt 50)]).
  - simpl. repeat (apply NoDup_cons; split;
                   [intros H; repeat (apply elem_of_cons in H as [H|H]; [discriminate H|]);
                    inversion H|]).
    apply NoDup_nil. exact I.
  - repeat (apply Forall_cons; split; [reflexivity|]). apply Forall_nil. exact I.
Defined.

(** *** From the search to the evaluation *)

Lemma best_of_in {A} (rest : list (A * scalar)) :
  forall current, best_of current rest ∈ fst current :: map fst rest.
Proof.
  induction rest as [|c rest IH]; intros current; cbn [best_of map].
  - apply list_elem_of_here.
  - destruct (worse (snd current) (snd c)).
    + apply list_elem_of_further, IH.
    + specialize (IH current). apply elem_of_cons in IH as [->|IH].
      * apply list_elem_of_here.
      * apply list_elem_of_further, list_elem_of_further, IH.
Qed.

(** No candidate of the four grids comes out of the stripping with a
    [random_state] among its names. *)
Lemma search_space_stripped_no_seed :
  forallb (fun entry =>
             forallb (fun candidate =>
                        negb (dict_contains "random_state" (strip_step candidate)))
                     (ParameterGrid (snd (snd entry))))
          search_space = true.
Proof. vm_compute. reflexivity. Qed.

(** For every candidate of the four grids, the names that the stripping
    gives are the names that [set_params] sets. *)
Lemma search_space_stripped_names :
  forallb (fun entry =>
             forallb (fun candidate =>
                        bool_decide (map fst (strip_step candidate) =
                                     map (fun kv => param_name "classifier" (fst kv))
                                         candidate))
                     (ParameterGrid (snd (snd entry))))
          search_space = true.
Proof. vm_compute. reflexivity. Qed.

Section Sklearn.

Variable rng : Type.
Variable RandomState : Z -> rng.
Variable KFold_split : nat -> nat -> rng -> result (list fold * rng).
Variable StratifiedKFold_split : nat -> list cell -> result (list fold).
Variable accepts : family -> string -> bool.
Variable fit_and_score :
  family -> kwargs -> rng -> ndarray -> list cell -> fold -> result Q.

Abbreviation search := (grid_search rng RandomState StratifiedKFold_split accepts fit_and_score).
Abbreviation fit_grid :=
  (GridSearchCV_fit rng RandomState StratifiedKFold_split accepts fit_and_score).
Abbreviation evaluate := (cv_res rng RandomState KFold_split fit_and_score).

(** The best parameters of a search are one of the candidates of its
    grid, and one that [set_params] took. *)
Lemma GridSearchCV_fit_in_grid (pipeline : Pipeline) (grid : list (string * list pyval))
    (k : nat) (X : ndarray) (y : list cell) (ambient : rng) (best : kwargs) :
  fit_grid pipeline grid k X y ambient = inr best ->
  best ∈ ParameterGrid grid /\ is_ok (set_params accepts best pipeline) = true.
Proof.
  unfold GridSearchCV_fit.
  destruct (negb (n_samples X =? length y)%nat); [discriminate|].
  destruct (StratifiedKFold_split k y) as [?|folds]; [discriminate|].
  cbn [mbind result_bind].
  destruct (list_comprehension _ (ParameterGrid grid)) as [?|fits] eqn:Hfits;
    [discriminate|].
  cbn [mbind result_bind].
  destruct (all_failed _); [discriminate|].
  apply list_comprehension_inr in Hfits.
  assert (Hfst : map fst fits = ParameterGrid grid /\
                 Forall (fun cand => is_ok (set_params accepts cand pipeline) = true)
                        (ParameterGrid grid)).
  { clear -Hfits. induction Hfits as [|cand cf cands fits Hcf _ [IH1 IH2]];
      [split; [reflexivity|constructor]|].
    destruct (set_params accepts cand pipeline) as [?|p] eqn:Hset; [discriminate|].
    cbn [mbind result_bind] in Hcf.
    destruct (final_estimator p) as [?|e]; [discriminate|].
    injection Hcf as <-. split.
    - cbn [map fst]. rewrite IH1. reflexivity.
    - constructor; [|exact IH2]. rewrite Hset. reflexivity. }
  destruct Hfst as [Hfst Hset].
  destruct fits as [|first rest]; [discriminate|]. cbn [map fst snd].
  intros [= <-].
  assert (Hin : best_of (fst first, mean (map score_or_nan (snd first)))
                  (map (fun cf : kwargs * list (result Q) =>
                          (fst cf, mean (map score_or_nan (snd cf)))) rest)
                ∈ ParameterGrid grid).
  { rewrite <- Hfst.
    pose proof (best_of_in
      (map (fun cf : kwargs * list (result Q) =>
              (fst cf, mean (map score_or_nan (snd cf)))) rest)
      (fst first, mean (map score_or_nan (snd first)))) as Hin.
    cbn [fst] in Hin. rewrite map_map in Hin. cbn [fst] in Hin.
    cbn [map]. exact Hin. }
  split; [exact Hin|].
  rewrite Forall_forall in Hset. apply Hset. exact Hin.
Qed.

(** Every parameter that [set_params] took is one that the class of the
    step has. *)
Lemma set_params_accepted (candidate : kwargs) :
  forall (p p' : Pipeline) (e : estimator),
    steps p = [("classifier", e)] ->
    set_params accepts candidate p = inr p' ->
    Forall (fun kv => accepts (cls e) (param_name "classifier" (fst kv)) = true) candidate.
Proof.
  induction candidate as [|[key v] candidate IH]; intros p p' e Hsteps; [constructor|].
  cbn [set_params]. unfold set_param at 1. rewrite Hsteps.
  destruct (String.prefix _ key && accepts (cls e) (param_name "classifier" key)) eqn:Hkey;
    [|discriminate].
  cbn [mbind result_bind]. intros Hrest.
  apply andb_true_iff in Hkey as [_ Hkey].
  constructor; [exact Hkey|].
  exact (IH {| steps := [("classifier",
                          {| cls := cls e;
                             params := dict_set (param_name "classifier" key) v (params e) |})] |}
            p' {| cls := cls e; params := dict_set (param_name "classifier" key) v (params e) |}
            eq_refl Hrest).
Qed.

(** One turn of the search loop. *)
Lemma search_turn (model : family) (name : string) (grid : list (string * list pyval))
    (Xs : ndarray) (ys : list cell) (ambient : rng) (best : kwargs) :
  (model, (name, grid)) ∈ search_space ->
  fit_grid (search_pipeline model) grid 10 Xs ys ambient = inr best ->
  best ∈ ParameterGrid grid /\
  Forall (fun kv => accepts model (fst kv) = true /\ fst kv <> "random_state")
         (strip_step best).
Proof.
  intros Hentry Hfit.
  apply GridSearchCV_fit_in_grid in Hfit as [Hin Hset].
  split; [exact Hin|].
  destruct (set_params accepts best (search_pipeline model)) as [?|p] eqn:Hp;
    [discriminate|].
  pose proof (set_params_accepted best (search_pipeline model) p
                (construct_default model) eq_refl Hp) as Hacc.
  cbn [cls construct_default] in Hacc.
  pose proof search_space_stripped_names as Hnames.
  pose proof search_space_stripped_no_seed as Hseed.
  rewrite forallb_forall in Hnames, Hseed.
  apply list_elem_of_In in Hentry, Hin.
  specialize (Hnames _ Hentry). specialize (Hseed _ Hentry). cbn [snd] in Hnames, Hseed.
  rewrite forallb_forall in Hnames, Hseed.
  specialize (Hnames _ Hin). specialize (Hseed _ Hin).
  apply bool_decide_eq_true in Hnames. apply negb_true_iff in Hseed.
  apply Forall_forall. intros kv Hkv. split.
  - assert (Hk : In (fst kv) (map fst (strip_step best)))
      by (apply in_map, list_elem_of_In; exact Hkv).
    rewrite Hnames in Hk. apply in_map_iff in Hk as (kv0 & <- & Hkv0).
    rewrite Forall_forall in Hacc. apply Hacc, list_elem_of_In. exact Hkv0.
  - intros Heq. unfold dict_contains in Hseed.
    assert (Hex : existsb (String.eqb "random_state") (dict_keys (strip_step best)) = true).
    { apply existsb_exists. exists (fst kv). split.
      - apply in_map, list_elem_of_In. exact Hkv.
      - rewrite Heq. apply String.eqb_refl. }
    rewrite Hex in Hseed. discriminate.
Qed.

(** What the search returns, the evaluation can start from: a search that
    completes returns an entry for each of [RF], [AdaBoost], [SVC] and
    [MLP], in this order, so that [cv_res] finds each key; each entry is a
    candidate of the grid of its family with the step name stripped; and
    its names are all parameters that the class of the family has, the
    search having set them, and none is [random_state]: the constructor
    calls of [cv_res] are given no keyword that the class lacks and none
    twice. *)
Theorem grid_search_feeds_evaluation (Xs : ndarray) (ys : list cell) (ambient : rng)
    (best_params : list (string * kwargs)) :
  search Xs ys ambient = inr best_params ->
  map fst best_params = model_names /\
  Forall2 (fun entry kv =>
             exists candidate,
               candidate ∈ ParameterGrid (snd (snd entry)) /\
               kv = (fst (snd entry), strip_step candidate) /\
               Forall (fun p => accepts (fst entry) (fst p) = true /\
                                fst p <> "random_state")
                      (snd kv))
          search_space best_params.
Proof.
  unfold grid_search.
  assert (Hspace : search_space =
            [ (RandomForestClassifier, ("RF", nth 0 parameters_list []));
              (AdaBoostClassifier, ("AdaBoost", nth 1 parameters_list []));
              (SVC, ("SVC", nth 2 parameters_list []));
              (MLPClassifier, ("MLP", nth 3 parameters_list [])) ]) by reflexivity.
  assert (Hmem : forall entry,
            In entry [ (RandomForestClassifier, ("RF", nth 0 parameters_list []));
                       (AdaBoostClassifier, ("AdaBoost", nth 1 parameters_list []));
                       (SVC, ("SVC", nth 2 parameters_list []));
                       (MLPClassifier, ("MLP", nth 3 parameters_list [])) ] ->
            entry ∈ search_space).
  { intros entry Hin. rewrite Hspace. apply list_elem_of_In. exact Hin. }
  rewrite Hspace at 1. cbn [search_loop].
  destruct (fit_grid (search_pipeline RandomForestClassifier) _ 10 Xs ys ambient)
    as [?|b1] eqn:H1; [discriminate|]. cbn [mbind result_bind].
  destruct (fit_grid (search_pipeline AdaBoostClassifier) _ 10 Xs ys ambient)
    as [?|b2] eqn:H2; [discriminate|]. cbn [mbind result_bind].
  destruct (fit_grid (search_pipeline SVC) _ 10 Xs ys ambient)
    as [?|b3] eqn:H3; [discriminate|]. cbn [mbind result_bind].
  destruct (fit_grid (search_pipeline MLPClassifier) _ 10 Xs ys ambient)
    as [?|b4] eqn:H4; [discriminate|]. cbn [mbind result_bind].
  apply (search_turn RandomForestClassifier "RF") in H1 as [I1 A1];
    [|apply Hmem; simpl; tauto].
  apply (search_turn AdaBoostClassifier "AdaBoost") in H2 as [I2 A2];
    [|apply Hmem; simpl; tauto].
  apply (search_turn SVC "SVC") in H3 as [I3 A3]; [|apply Hmem; simpl; tauto].
  apply (search_turn MLPClassifier "MLP") in H4 as [I4 A4]; [|apply Hmem; simpl; tauto].
  intros [= <-].
  change (dict_set "MLP" (strip_step b4)
            (dict_set "SVC" (strip_step b3)
               (dict_set "AdaBoost" (strip_step b2)
                  (dict_set "RF" (strip_step b1) []))))
    with [("RF", strip_step b1); ("AdaBoost", strip_step b2);
          ("SVC", strip_step b3); ("MLP", strip_step b4)].
  split; [reflexivity|]. rewrite Hspace.
  repeat (apply Forall2_cons; split;
          [eexists; split; [eassumption|]; split; [reflexivity|assumption]|]).
  apply Forall2_nil. reflexivity.
Qed.

(** *** The evaluation, repeat by repeat *)

Lemma repeated_split_groups (repeats splits n : nat) :
  forall g,
    repeated_split rng KFold_split repeats splits n g =
    (groups ← repeated_groups rng KFold_split repeats splits n g; mret (concat groups)).
Proof.
  induction repeats as [|repeats IH]; intros g; [reflexivity|].
  cbn [repeated_split repeated_groups].
  destruct (KFold_split splits n g) as [?|[folds g']]; [reflexivity|].
  cbn [mbind result_bind]. rewrite IH.
  destruct (repeated_groups rng KFold_split repeats splits n g'); reflexivity.
Qed.

Lemma repeated_groups_shape (repeats splits n : nat) :
  (forall k m g folds g', KFold_split k m g = inr (folds, g') -> length folds = k) ->
  forall g groups,
    repeated_groups rng KFold_split repeats splits n g = inr groups ->
    length groups = repeats /\ Forall (fun grp => length grp = splits) groups.
Proof.
  intros Hk. induction repeats as [|repeats IH]; intros g groups.
  - intros [= <-]. split; constructor.
  - cbn [repeated_groups].
    destruct (KFold_split splits n g) as [?|[folds g']] eqn:Hsplit; [discriminate|].
    cbn [mbind result_bind].
    destruct (repeated_groups rng KFold_split repeats splits n g') as [?|more] eqn:Hmore;
      [discriminate|].
    intros [= <-]. destruct (IH g' more Hmore) as [Hlen Hall]. split.
    + simpl. rewrite Hlen. reflexivity.
    + constructor; [apply (Hk _ _ _ _ _ Hsplit) | exact Hall].
Qed.

(** With a splitter that gives [n_splits] folds at each repeat, the
    reshaping of [cv_res] never raises and cuts where the repeats end: for
    estimators that were built, a matrix and labels of one length, folds
    that the splitter could draw and at least one fit that worked per
    family, [cv_res] returns for each family five values, and value [j] is
    the mean score of the family over the ten folds of repeat [j]. *)
Theorem cv_res_by_repeat (Xs : ndarray) (ys : list cell)
    (best_params : list (string * kwargs)) (ambient : rng)
    (RF Ada SVM MLP : estimator) (groups : list (list fold)) :
  (forall k m g folds g', KFold_split k m g = inr (folds, g') -> length folds = k) ->
  evaluation_estimators best_params = inr (RF, Ada, SVM, MLP) ->
  n_samples Xs = length ys ->
  repeated_groups rng KFold_split 5 10 (n_samples Xs) (RandomState 42) = inr groups ->
  Forall (fun e =>
            all_failed (map (fit_and_score (cls e) (params e) (RandomState 42) Xs ys)
                            (concat groups)) = false)
         [RF; Ada; SVM; MLP] ->
  length groups = 5%nat /\
  evaluate Xs ys best_params ambient =
    inr (map (fun ne : string * estimator =>
                (fst ne,
                 per_repeat (fun f => score_or_nan
                               (fit_and_score (cls (snd ne)) (params (snd ne))
                                              (RandomState 42) Xs ys f))
                            groups))
             [("RF", RF); ("AdaBoost", Ada); ("SVC", SVM); ("MLP", MLP)]).
Proof.
  intros Hk Hest Hlen Hgroups Hfits.
  destruct (repeated_groups_shape 5 10 (n_samples Xs) Hk _ _ Hgroups) as [Hfive Hten].
  split; [exact Hfive|].
  pose proof (evaluation_estimators_seeded _ _ _ _ _ Hest) as [Hseeds _].
  assert (Hscore : forall e,
            get_random_state e = Some 42%Z ->
            all_failed (map (fit_and_score (cls e) (params e) (RandomState 42) Xs ys)
                            (concat groups)) = false ->
            cross_val_score rng RandomState KFold_split fit_and_score
                            e Xs ys evaluation_cv ambient =
              inr (concat (map (map (fun f => score_or_nan
                                      (fit_and_score (cls e) (params e)
                                                     (RandomState 42) Xs ys f)))
                               groups))).
  { intros e Hseed Hfail.
    rewrite (cross_val_score_seeded rng RandomState KFold_split fit_and_score
               e Xs ys evaluation_cv ambient 42 42 Hseed eq_refl).
    unfold scores_over.
    replace (n_samples Xs =? length ys)%nat with true
      by (symmetry; apply Nat.eqb_eq; exact Hlen).
    cbn [negb n_repeats n_splits evaluation_cv].
    rewrite repeated_split_groups, Hgroups. cbn [mbind result_bind mret result_ret].
    rewrite Hfail, map_map, concat_map. reflexivity. }
  assert (Hmeans : forall e,
            repeat_means (concat (map (map (fun f => score_or_nan
                                      (fit_and_score (cls e) (params e)
                                                     (RandomState 42) Xs ys f)))
                               groups)) =
              inr (per_repeat (fun f => score_or_nan
                                 (fit_and_score (cls e) (params e)
                                                (RandomState 42) Xs ys f)) groups)).
  { intros e. rewrite repeat_means_concat.
    - unfold per_repeat. rewrite map_map. reflexivity.
    - clear -Hten. induction Hten as [|grp groups Hgrp _ IH]; constructor.
      + rewrite length_map. exact Hgrp.
      + exact IH. }
  apply Forall_cons in Hseeds as [S1 Hseeds], Hfits as [F1 Hfits].
  apply Forall_cons in Hseeds as [S2 Hseeds], Hfits as [F2 Hfits].
  apply Forall_cons in Hseeds as [S3 Hseeds], Hfits as [F3 Hfits].
  apply Forall_cons in Hseeds as [S4 _], Hfits as [F4 _].
  unfold cv_res. rewrite Hest. cbn [mbind result_bind].
  rewrite (Hscore MLP S4 F4), (Hscore RF S1 F1), (Hscore Ada S2 F2), (Hscore SVM S3 F3).
  cbn [mbind result_bind].
  rewrite !Hmeans. reflexivity.
Qed.

End Sklearn.

Lemma grid_search_feeds_evaluation_witness :
  map fst Toy.searched = model_names /\
  Forall2 (fun entry kv =>
             exists candidate,
               candidate ∈ ParameterGrid (snd (snd entry)) /\
               kv = (fst (snd entry), strip_step candidate) /\
               Forall (fun p => Toy.accepts (fst entry) (fst p) = true /\
                                fst p <> "random_state")
                      (snd kv))
          search_space Toy.searched.
Proof.
  apply (grid_search_feeds_evaluation Z Toy.RandomState Toy.StratifiedKFold_split
           Toy.accepts Toy.fit_and_score Toy.Xs Toy.ys 0%Z Toy.searched).
  vm_compute. reflexivity.
Defined.

Lemma cv_res_by_repeat_witness :
  length Toy.groups = 5%nat /\
  Toy.cv_res Toy.Xs Toy.ys Toy.best_params 0%Z =
    inr (map (fun ne : string * estimator =>
                (fst ne,
                 per_repeat (fun f => score_or_nan
                               (Toy.fit_and_score (cls (snd ne)) (params (snd ne))
                                                  (Toy.RandomState 42) Toy.Xs Toy.ys f))
                            Toy.groups))
             [ ("RF", Toy.seeded RandomForestClassifier "RF");
               ("AdaBoost", Toy.seeded AdaBoostClassifier "AdaBoost");
               ("SVC", Toy.seeded SVC "SVC");
               ("MLP", Toy.seeded MLPClassifier "MLP") ]).
Proof.
  apply (cv_res_by_repeat Z Toy.RandomState Toy.KFold_split Toy.fit_and_score
           Toy.Xs Toy.ys Toy.best_params 0%Z
           (Toy.seeded RandomForestClassifier "RF")
           (Toy.seeded AdaBoostClassifier "AdaBoost")
           (Toy.seeded SVC "SVC")
           (Toy.seeded MLPClassifier "MLP")
           Toy.groups).
  - intros k m g folds g' [= <- _]. rewrite length_map, length_seq. reflexivity.
  - reflexivity.
  - reflexivity.
  - vm_compute. reflexivity.
  - repeat (apply Forall_cons; split; [vm_compute; reflexivity|]). apply Forall_nil. exact I.
Defined.

End PredictMore.
